(** * my_plots: the picosecond tick formatter and the plot orchestrator

    A shallow embedding of [my_plots.py].  Python values are modelled the
    way the interpreter has them:
    - [int] is an unbounded integer ([Z]);
    - [float] is an IEEE 754 binary64 number ([spec_float] with
      precision 53 and maximal exponent 1024);
    - [str] is written as its UTF-8 encoding, so every string literal
      below holds the same bytes as the literal in the Python source;
    - an exception is the [Raise] result. *)

From Stdlib Require Import ZArith Bool List Lia.
From Stdlib Require Import Strings.Ascii Strings.String Numbers.DecimalString.
From Stdlib Require Import Floats.SpecFloat.
Import ListNotations.

Local Open Scope string_scope.
Local Open Scope Z_scope.

(** ** Exceptions and results *)

Inductive exn :=
| KeyError
| IndexError
| TypeError
| ValueError
| OverflowError
| OSError.

Inductive result (A : Type) :=
| Ok (a : A)
| Raise (e : exn).
Arguments Ok {A} a.
Arguments Raise {A} e.

Definition bind {A B} (r : result A) (k : A -> result B) : result B :=
  match r with
  | Ok a => k a
  | Raise e => Raise e
  end.

Notation "x <- r ;; k" := (bind r (fun x => k))
  (at level 61, r at next level, right associativity).

(** ** Python numbers *)

Module PyFloat.

Definition prec : Z := 53.
Definition emax : Z := 1024.

Definition mul : spec_float -> spec_float -> spec_float := SFmul prec emax.
Definition eqb : spec_float -> spec_float -> bool := SFeqb.
Definition leb : spec_float -> spec_float -> bool := SFleb.

(** The binary64 number nearest to the integer [z] (ties to even);
    an infinity when [z] is out of range. *)
Definition nearest (z : Z) : spec_float := binary_normalize prec emax z 0 false.

(** [float(z)] for an [int] [z]: the interpreter refuses an integer
    that is too large for a double. *)
Definition of_int (z : Z) : result spec_float :=
  match nearest z with
  | S754_infinity _ => Raise OverflowError
  | f => Ok f
  end.

(** The literals of the source.  [1e6] and [1e3] are integers below
    2^53 and hence exact; [1e-6] and [1e-3] are the doubles nearest to
    the decimal fractions, given by mantissa and exponent. *)
Definition lit_1e6 : spec_float := nearest 1000000.
Definition lit_1e3 : spec_float := nearest 1000.
Definition lit_1e_6 : spec_float := S754_finite false 4722366482869645 (-72).
Definition lit_1e_3 : spec_float := S754_finite false 4611686018427388 (-62).
Definition zero : spec_float := S754_zero false.

End PyFloat.

(** A number is an [int] or a [float]; the floats the interpreter has
    are the [spec_float] values in canonical form ([valid_binary]), as
    [binary_normalize] and the operations return them. *)
Inductive pynum :=
| PyInt (z : Z)
| PyFloat (f : spec_float).

(** [x_val == 0]: an [int] is compared as an integer; a [float] equals 0
    when it is a zero of either sign (never when it is a NaN). *)
Definition eq_zero (x : pynum) : bool :=
  match x with
  | PyInt z => z =? 0
  | PyFloat f => PyFloat.eqb f PyFloat.zero
  end.

(** The exact comparison of an integer with a double, as the
    interpreter does it for [int >= float]: no rounding of the integer. *)
Definition int_ge_float (z : Z) (c : spec_float) : bool :=
  match c with
  | S754_nan => false
  | S754_infinity s => s
  | S754_zero _ => 0 <=? z
  | S754_finite s m e =>
      let v := if s then Z.neg m else Z.pos m in
      if 0 <=? e then v * 2 ^ e <=? z else v <=? z * 2 ^ (- e)
  end.

(** [x_val >= c] for a float literal [c]. *)
Definition ge_float (x : pynum) (c : spec_float) : bool :=
  match x with
  | PyInt z => int_ge_float z c
  | PyFloat f => PyFloat.leb c f
  end.

(** [x_val * c] for a float literal [c]: an [int] is converted first. *)
Definition mul_float (x : pynum) (c : spec_float) : result spec_float :=
  match x with
  | PyInt z => f <- PyFloat.of_int z ;; Ok (PyFloat.mul f c)
  | PyFloat f => Ok (PyFloat.mul f c)
  end.

(** ** The format specification [1.0f] *)

(** The integer nearest to [m * 2^e], ties to the even one. *)
Definition round_half_even (m : positive) (e : Z) : Z :=
  if 0 <=? e then Z.pos m * 2 ^ e
  else
    let d := 2 ^ (- e) in
    let q := Z.pos m / d in
    let r := Z.pos m mod d in
    match 2 * r ?= d with
    | Lt => q
    | Gt => q + 1
    | Eq => if Z.even q then q else q + 1
    end.

Definition digits (n : Z) : string := NilEmpty.string_of_uint (N.to_uint (Z.to_N n)).

Definition sign_str (s : bool) : string := if s then "-" else "".

(** ['{:1.0f}'.format(f)] for a float: fixed notation, no fractional
    digit, minimal width 1 (which never pads), a sign for negative
    values only; the decimal digits are those of the exact binary value
    rounded to an integer. *)
Definition format_1_0f (f : spec_float) : string :=
  match f with
  | S754_nan => "nan"
  | S754_infinity s => sign_str s ++ "inf"
  | S754_zero s => sign_str s ++ "0"
  | S754_finite s m e => sign_str s ++ digits (round_half_even m e)
  end.

(** The same for any number: [int.__format__] with presentation type
    [f] converts the integer to a float first. *)
Definition format_num (x : pynum) : result string :=
  match x with
  | PyInt z => f <- PyFloat.of_int z ;; Ok (format_1_0f f)
  | PyFloat f => Ok (format_1_0f f)
  end.

(** ** ps_time *)

(** The unit suffixes, byte for byte as in the source file.  The first
    one is five bytes after the blank: C3 82 C2 B5 73, that is the two
    characters U+00C2 and U+00B5 followed by [s]. *)
Definition suffix_us : string := " Âµs".
Definition suffix_ns : string := " ns".
Definition suffix_ps : string := " ps".

Definition ps_time {P : Type} (x_val : pynum) (pos : P) : result string :=
  if eq_zero x_val then
    format_num x_val
  else if ge_float x_val PyFloat.lit_1e6 then
    v <- mul_float x_val PyFloat.lit_1e_6 ;;
    Ok (format_1_0f v ++ suffix_us)
  else if ge_float x_val PyFloat.lit_1e3 then
    v <- mul_float x_val PyFloat.lit_1e_3 ;;
    Ok (format_1_0f v ++ suffix_ns)
  else
    t <- format_num x_val ;;
    Ok (t ++ suffix_ps).

(** ** The host plotting library

    [plot_any] only sequences calls into matplotlib.  The host is
    modelled by the part of its state these calls touch: the two style
    settings, the figures pyplot keeps open (the current one first), the
    axes of every figure created, and the files written.  Figure and
    axes of one [subplots] call share a number. *)

Inductive pyval :=
| VNone
| VNum (n : pynum)
| VStr (s : string)
| VList (l : list pynum).

(** One call of a draw primitive of an axes object, with its arguments. *)
Inductive draw_call :=
| AxPlot (x y : list pynum) (color label : pyval)
| AxScatter (x y : list pynum) (c label s marker : pyval)
| AxVlines (x : list pynum) (ymin : pyval) (ymax : list pynum) (colors : pyval).

(** A tick formatter: the function handed to [FuncFormatter]. *)
Definition tickfn : Type := pynum -> pyval -> result string.

(** The other calls on an axes object, kept in the order they are made. *)
Inductive style_call :=
| FigSize (w h : Z)
| SetXlim (lo hi : pynum)
| SetYlim (lo hi : pynum)
| SetText (xlabel ylabel title : string)
| TickParams (axis which : string) (pad : Z)
| Grid (b : bool)
| Legend (fontsize : Z) (loc : string) (bbox_to_anchor : Z * Z)
         (borderaxespad : spec_float) (frameon : bool) (handles : list pyval)
| HandleLinewidth (handle : pyval) (w : spec_float)
| MajorFormatter (axis : string) (f : tickfn).

Record axes := {
  artists : list draw_call;
  styles : list style_call;
  x_inverted : bool;
  y_inverted : bool
}.

Record image := {
  img_fig : nat;
  img_tight : bool;
  img_content : axes
}.

Record mpl := {
  rc_linewidth : pynum;
  rc_fontsize : pynum;
  created : nat;
  open_figs : list nat;
  axes_of : list (nat * axes);
  files : list (string * image)
}.

(** What the model leaves to the host: which draw calls it accepts (it
    raises on the others, for instance on x and y of unequal length),
    which limit pairs it accepts and which of them run downwards, and
    which paths it can write. *)
Record host := {
  draw_ok : draw_call -> bool;
  lim_ok : pynum -> pynum -> bool;
  lim_reversed : pynum -> pynum -> bool;
  path_ok : string -> bool
}.

(** Host calls: state passing, the state is kept when a call raises. *)
Definition M (A : Type) : Type := mpl -> result A * mpl.

Definition ret {A} (a : A) : M A := fun s => (Ok a, s).
Definition raise {A} (e : exn) : M A := fun s => (Raise e, s).
Definition lift {A} (r : result A) : M A := fun s => (r, s).

Definition mbind {A B} (m : M A) (k : A -> M B) : M B :=
  fun s =>
    match m s with
    | (Ok a, s') => k a s'
    | (Raise e, s') => (Raise e, s')
    end.

Declare Scope mpl_scope.
Delimit Scope mpl_scope with mpl.
Notation "x <- m ;; k" := (mbind m (fun x => k))
  (at level 61, m at next level, right associativity) : mpl_scope.
Notation "m ;; k" := (mbind m (fun _ => k))
  (at level 61, right associativity) : mpl_scope.

Definition modify (f : mpl -> mpl) : M unit := fun s => (Ok tt, f s).

(** Association lists stand for the dictionaries and object tables. *)
Fixpoint assoc {A} (k : string) (l : list (string * A)) : option A :=
  match l with
  | [] => None
  | (k', v) :: l' => if String.eqb k k' then Some v else assoc k l'
  end.

Fixpoint get_axes (n : nat) (l : list (nat * axes)) : option axes :=
  match l with
  | [] => None
  | (n', a) :: l' => if Nat.eqb n n' then Some a else get_axes n l'
  end.

Fixpoint put_axes (n : nat) (f : axes -> axes) (l : list (nat * axes)) : list (nat * axes) :=
  match l with
  | [] => []
  | (n', a) :: l' => if Nat.eqb n n' then (n', f a) :: l' else (n', a) :: put_axes n f l'
  end.

Definition empty_axes : axes :=
  {| artists := []; styles := []; x_inverted := false; y_inverted := false |}.

Definition add_artist (d : draw_call) (a : axes) : axes :=
  {| artists := artists a ++ [d]; styles := styles a;
     x_inverted := x_inverted a; y_inverted := y_inverted a |}.

Definition add_style (c : style_call) (a : axes) : axes :=
  {| artists := artists a; styles := styles a ++ [c];
     x_inverted := x_inverted a; y_inverted := y_inverted a |}.

Definition set_x_inverted (b : bool) (a : axes) : axes :=
  {| artists := artists a; styles := styles a;
     x_inverted := b; y_inverted := y_inverted a |}.

Definition set_y_inverted (b : bool) (a : axes) : axes :=
  {| artists := artists a; styles := styles a;
     x_inverted := x_inverted a; y_inverted := b |}.

Definition on_axes (ax : nat) (f : axes -> axes) : M unit :=
  modify (fun s =>
    {| rc_linewidth := rc_linewidth s; rc_fontsize := rc_fontsize s;
       created := created s; open_figs := open_figs s;
       axes_of := put_axes ax f (axes_of s); files := files s |}).

Section Host.

Variable h : host.

Local Open Scope mpl_scope.

(** [mpl.rcParams[...] = v] for the two keys the source sets. *)
Definition set_rc_linewidth (v : pynum) : M unit :=
  modify (fun s =>
    {| rc_linewidth := v; rc_fontsize := rc_fontsize s;
       created := created s; open_figs := open_figs s;
       axes_of := axes_of s; files := files s |}).

Definition set_rc_fontsize (v : pynum) : M unit :=
  modify (fun s =>
    {| rc_linewidth := rc_linewidth s; rc_fontsize := v;
       created := created s; open_figs := open_figs s;
       axes_of := axes_of s; files := files s |}).

(** A new figure with its axes gets the next number and becomes the
    current figure. *)
Definition new_figure (a : axes) : M nat :=
  fun s =>
    let n := created s in
    (Ok n,
     {| rc_linewidth := rc_linewidth s; rc_fontsize := rc_fontsize s;
        created := S n; open_figs := n :: open_figs s;
        axes_of := (n, a) :: axes_of s;
        files := files s |}).

(** [plt.subplots(figsize=(w, h))]: a new figure with one empty axes. *)
Definition subplots (w ht : Z) : M nat :=
  new_figure (add_style (FigSize w ht) empty_axes).

(** A draw primitive: the host checks its arguments, then adds the artist. *)
Definition ax_draw (ax : nat) (d : draw_call) : M unit :=
  if draw_ok h d then on_axes ax (add_artist d) else raise ValueError.

Definition ax_style (ax : nat) (c : style_call) : M unit :=
  on_axes ax (add_style c).

(** [ax.set(xlim=(lo, hi))] also fixes the direction of the axis. *)
Definition ax_set_xlim (ax : nat) (lo hi : pynum) : M unit :=
  if lim_ok h lo hi
  then on_axes ax (fun a => set_x_inverted (lim_reversed h lo hi) (add_style (SetXlim lo hi) a))
  else raise ValueError.

Definition ax_set_ylim (ax : nat) (lo hi : pynum) : M unit :=
  if lim_ok h lo hi
  then on_axes ax (fun a => set_y_inverted (lim_reversed h lo hi) (add_style (SetYlim lo hi) a))
  else raise ValueError.

(** [plt.gca()]: the axes of the current figure; pyplot makes a figure
    when none is open. *)
Definition gca : M nat :=
  fun s =>
    match open_figs s with
    | n :: _ => (Ok n, s)
    | [] => new_figure empty_axes s
    end.

Definition invert_xaxis (ax : nat) : M unit :=
  on_axes ax (fun a => set_x_inverted (negb (x_inverted a)) a).

Definition invert_yaxis (ax : nat) : M unit :=
  on_axes ax (fun a => set_y_inverted (negb (y_inverted a)) a).

(** The legend shows the artists that carry a label of their own: a
    string that is not empty and does not start with an underscore. *)
Definition shown_label (l : pyval) : bool :=
  match l with
  | VStr (String c _) => negb (Ascii.eqb c "_")
  | _ => false
  end.

Definition label_of (d : draw_call) : pyval :=
  match d with
  | AxPlot _ _ _ l => l
  | AxScatter _ _ _ l _ _ => l
  | AxVlines _ _ _ _ => VNone
  end.

Definition legend_handles (a : axes) : list pyval :=
  filter shown_label (map label_of (artists a)).

(** [ax.legend(...)] returns the legend; its handles are what the
    source iterates over. *)
Definition ax_legend (ax : nat) (fontsize : Z) (loc : string) (anchor : Z * Z)
           (pad : spec_float) (frameon : bool) : M (list pyval) :=
  fun s =>
    let hs := match get_axes ax (axes_of s) with
              | Some a => legend_handles a
              | None => []
              end in
    match ax_style ax (Legend fontsize loc anchor pad frameon hs) s with
    | (_, s') => (Ok hs, s')
    end.

(** [plt.savefig(name, bbox_inches='tight')] writes the current figure. *)
Definition savefig (name : string) (tight : bool) : M unit :=
  fig <- gca ;;
  fun s =>
    if path_ok h name then
      let content := match get_axes fig (axes_of s) with
                     | Some a => a
                     | None => empty_axes
                     end in
      (Ok tt,
       {| rc_linewidth := rc_linewidth s; rc_fontsize := rc_fontsize s;
          created := created s; open_figs := open_figs s;
          axes_of := axes_of s;
          files := (name, {| img_fig := fig; img_tight := tight;
                             img_content := content |}) :: files s |})
    else (Raise OSError, s).

(** [plt.close(fig)] takes the figure off pyplot's list. *)
Definition close (fig : nat) : M unit :=
  modify (fun s =>
    {| rc_linewidth := rc_linewidth s; rc_fontsize := rc_fontsize s;
       created := created s;
       open_figs := filter (fun n => negb (Nat.eqb n fig)) (open_figs s);
       axes_of := axes_of s; files := files s |}).

(** ** The module [my_plots] *)

(** Keyword arguments of a call, in the order they are written; the
    names a function takes by keyword are checked when it is called:
    an unknown name or a name given twice is a [TypeError]. *)
Definition keywords : Type := list (string * pyval).

Fixpoint mem (k : string) (l : list string) : bool :=
  match l with
  | [] => false
  | k' :: l' => String.eqb k k' || mem k l'
  end.

Fixpoint check_kw (allowed : list string) (kw : keywords) : bool :=
  match kw with
  | [] => true
  | (k, _) :: kw' => mem k allowed && negb (mem k (map fst kw')) && check_kw allowed kw'
  end.

Definition arg (k : string) (default : pyval) (kw : keywords) : pyval :=
  match assoc k kw with
  | Some v => v
  | None => default
  end.

Definition renderer : Type := nat -> list pynum -> list pynum -> keywords -> M unit.

(** The parameters after [ax], [x] and [y] in the three signatures;
    [color] is the only one without a default. *)
Definition lines_params : list string := ["color"; "label"].
Definition points_params : list string := ["color"; "label"; "s"; "marker"].
Definition vlines_params : list string := ["color"; "label"; "origin"].

Definition lines : renderer := fun ax x y kw =>
  if check_kw lines_params kw && mem "color" (map fst kw) then
    let color := arg "color" VNone kw in
    let label := arg "label" VNone kw in
    ax_draw ax (AxPlot x y color label)
  else raise TypeError.

Definition points : renderer := fun ax x y kw =>
  if check_kw points_params kw && mem "color" (map fst kw) then
    let color := arg "color" VNone kw in
    let label := arg "label" VNone kw in
    let s := arg "s" (VNum (PyInt 300)) kw in
    let marker := arg "marker" (VStr "x") kw in
    ax_draw ax (AxScatter x y color label s marker)
  else raise TypeError.

Definition vlines : renderer := fun ax x y kw =>
  if check_kw vlines_params kw && mem "color" (map fst kw) then
    let color := arg "color" VNone kw in
    let label := arg "label" VNone kw in
    let origin := arg "origin" (VNum (PyInt 0)) kw in
    ax_draw ax (AxVlines x origin y color)
  else raise TypeError.

Definition exe_func : list (string * renderer) :=
  [("lines", lines); ("points", points); ("vlines", vlines)].

Definition colorcycle : list string :=
  ["C0"; "C1"; "C2"; "C3"; "C4"; "C5"; "C6"; "C7"; "C8"; "C9"].

(** [d[k]] and [l[i]] for a non-negative [i]. *)
Definition getitem {A} (d : list (string * A)) (k : string) : result A :=
  match assoc k d with
  | Some v => Ok v
  | None => Raise KeyError
  end.

Definition subscript {A} (l : list A) (i : nat) : result A :=
  match nth_error l i with
  | Some v => Ok v
  | None => Raise IndexError
  end.

(** The keyword parameters of [plot_any] with their defaults. *)
Record options := {
  plotcase : string;
  labels : option (list string);
  title : string;
  x_label : string;
  y_label : string;
  xlims : option (pynum * pynum);
  ylims : option (pynum * pynum);
  show : bool;
  save : bool;
  grid : bool;
  savename : string;
  linewidth : pynum;
  formatfuncx : option tickfn;
  formatfuncy : option tickfn;
  invert : list string;
  kwargs : keywords
}.

Definition defaults : options :=
  {| plotcase := "lines"; labels := None; title := ""; x_label := ""; y_label := "";
     xlims := None; ylims := None; show := true; save := false; grid := false;
     savename := "plot.png"; linewidth := PyInt 5;
     formatfuncx := None; formatfuncy := None; invert := []; kwargs := [] |}.

(** [if labels:] holds for a list that is not empty. *)
Definition truthy {A} (l : option (list A)) : bool :=
  match l with
  | Some (_ :: _) => true
  | _ => false
  end.

(** The two drawing loops of the source differ only in the [label]
    keyword: [labels] is [Some] in the first and [None] in the second.
    The expressions of one iteration are evaluated in the order of the
    source: the table entry, the two columns, the colour, the label,
    then the call. *)
Fixpoint draw_all (ax : nat) (plotcase : string) (labels : option (list string))
         (kwargs : keywords) (index : nat) (vals : list (list (list pynum))) : M unit :=
  match vals with
  | [] => ret tt
  | values :: rest =>
      f <- lift (getitem exe_func plotcase) ;;
      x <- lift (subscript values 0) ;;
      y <- lift (subscript values 1) ;;
      color <- lift (subscript colorcycle (index mod List.length colorcycle)) ;;
      kw <- match labels with
            | Some ls =>
                l <- lift (subscript ls index) ;;
                ret (("color", VStr color) :: ("label", VStr l) :: kwargs)
            | None => ret (("color", VStr color) :: kwargs)
            end ;;
      f ax x y kw ;;
      draw_all ax plotcase labels kwargs (S index) rest
  end.

Fixpoint set_linewidths (ax : nat) (w : spec_float) (handles : list pyval) : M unit :=
  match handles with
  | [] => ret tt
  | legobj :: rest => ax_style ax (HandleLinewidth legobj w) ;; set_linewidths ax w rest
  end.

Fixpoint invert_axes (invert : list string) : M unit :=
  match invert with
  | [] => ret tt
  | axis :: rest =>
      (if String.eqb axis "x" then a <- gca ;; invert_xaxis a
       else if String.eqb axis "y" then a <- gca ;; invert_yaxis a
       else ret tt) ;;
      invert_axes rest
  end.

Definition lit_2_5 : spec_float := S754_finite false 5629499534213120 (-51).
Definition lit_0_1 : spec_float := S754_finite false 7205759403792794 (-56).

Definition plot_any (vals : list (list (list pynum))) (o : options) : M unit :=
  let fontsize := 30 in
  let label_fontsize := 25 in
  let label_linewidth := lit_2_5 in
  set_rc_linewidth (linewidth o) ;;
  set_rc_fontsize (PyInt fontsize) ;;
  ax <- subplots 24 18 ;;
  (if truthy (labels o)
   then draw_all ax (plotcase o) (labels o) (kwargs o) 0 vals
   else draw_all ax (plotcase o) None (kwargs o) 0 vals) ;;
  match xlims o with
  | Some (lo, hi) => ax_set_xlim ax lo hi
  | None => ret tt
  end ;;
  match ylims o with
  | Some (lo, hi) => ax_set_ylim ax lo hi
  | None => ret tt
  end ;;
  ax_style ax (SetText (x_label o) (y_label o) (title o)) ;;
  ax_style ax (TickParams "x" "major" 7) ;;
  ax_style ax (Grid (grid o)) ;;
  (if truthy (labels o)
   then leg <- ax_legend ax label_fontsize "upper left" (1, 1) lit_0_1 false ;;
        set_linewidths ax label_linewidth leg
   else ret tt) ;;
  invert_axes (invert o) ;;
  match formatfuncx o with
  | Some f => ax_style ax (MajorFormatter "x" f)
  | None => ret tt
  end ;;
  match formatfuncy o with
  | Some f => ax_style ax (MajorFormatter "y" f)
  | None => ret tt
  end ;;
  (if save o then savefig (savename o) true else ret tt) ;;
  (if negb (show o) then close ax else ret tt) ;;
  ret tt.

End Host.

(** ** A host for the examples *)

(** The colour and the data of a draw call. *)
Definition color_of (d : draw_call) : pyval :=
  match d with
  | AxPlot _ _ c _ => c
  | AxScatter _ _ c _ _ _ => c
  | AxVlines _ _ _ c => c
  end.

Definition xs_of (d : draw_call) : list pynum :=
  match d with
  | AxPlot x _ _ _ => x
  | AxScatter x _ _ _ _ _ => x
  | AxVlines x _ _ _ => x
  end.

Definition ys_of (d : draw_call) : list pynum :=
  match d with
  | AxPlot _ y _ _ => y
  | AxScatter _ y _ _ _ _ => y
  | AxVlines _ _ y _ => y
  end.

(** The state of a fresh interpreter session. *)
Definition mpl0 : mpl :=
  {| rc_linewidth := PyFloat (S754_finite false 6755399441055744 (-52));
     rc_fontsize := PyInt 10;
     created := 1; open_figs := []; axes_of := []; files := [] |}.

Definition to_float (x : pynum) : spec_float :=
  match x with
  | PyInt z => PyFloat.nearest z
  | PyFloat f => f
  end.

Definition is_finite (f : spec_float) : bool :=
  match f with
  | S754_nan | S754_infinity _ => false
  | _ => true
  end.

(** A host that wants x and y of equal length, finite limits and a
    path that is not empty. *)
Definition host0 : host :=
  {| draw_ok := fun d => Nat.eqb (List.length (xs_of d)) (List.length (ys_of d));
     lim_ok := fun lo hi => is_finite (to_float lo) && is_finite (to_float hi);
     lim_reversed := fun lo hi => SFltb (to_float hi) (to_float lo);
     path_ok := fun name => negb (String.eqb name "") |}.

(** * Specification

    The definitions the statements below are written with. *)

(** What a run of [plot_any] can change for one axes object: the axes
    itself, the open figures and the files. *)
Definition view (ax : nat) (s : mpl) (a : axes) (op : list nat)
           (fl : list (string * image)) : Prop :=
  get_axes ax (axes_of s) = Some a /\ open_figs s = op /\ files s = fl.

(** ** Calls for the examples *)

Definition one_series : list (list pynum) :=
  [[PyInt 1; PyInt 2; PyInt 3]; [PyInt 3; PyInt 2; PyInt 1]].

Definition with_plotcase (pc : string) (o : options) : options :=
  {| plotcase := pc; labels := labels o; title := title o; x_label := x_label o;
     y_label := y_label o; xlims := xlims o; ylims := ylims o; show := show o;
     save := save o; grid := grid o; savename := savename o; linewidth := linewidth o;
     formatfuncx := formatfuncx o; formatfuncy := formatfuncy o; invert := invert o;
     kwargs := kwargs o |}.

Definition with_labels (ls : list string) (o : options) : options :=
  {| plotcase := plotcase o; labels := Some ls; title := title o; x_label := x_label o;
     y_label := y_label o; xlims := xlims o; ylims := ylims o; show := show o;
     save := save o; grid := grid o; savename := savename o; linewidth := linewidth o;
     formatfuncx := formatfuncx o; formatfuncy := formatfuncy o; invert := invert o;
     kwargs := kwargs o |}.

Definition with_invert (inv : list string) (o : options) : options :=
  {| plotcase := plotcase o; labels := labels o; title := title o; x_label := x_label o;
     y_label := y_label o; xlims := xlims o; ylims := ylims o; show := show o;
     save := save o; grid := grid o; savename := savename o; linewidth := linewidth o;
     formatfuncx := formatfuncx o; formatfuncy := formatfuncy o; invert := inv;
     kwargs := kwargs o |}.

Definition saving_only (o : options) : options :=
  {| plotcase := plotcase o; labels := labels o; title := title o; x_label := x_label o;
     y_label := y_label o; xlims := xlims o; ylims := ylims o; show := false;
     save := true; grid := grid o; savename := savename o; linewidth := linewidth o;
     formatfuncx := formatfuncx o; formatfuncy := formatfuncy o; invert := invert o;
     kwargs := kwargs o |}.

(** The axes of the figure a call made in state [s]. *)
Definition new_axes (s : mpl) (r : result unit * mpl) : option axes :=
  get_axes (created s) (axes_of (snd r)).

Definition ragged_series : list (list pynum) :=
  [[PyInt 1; PyInt 2; PyInt 3]; [PyInt 3; PyInt 2]].

Definition scatter_call : options :=
  {| plotcase := "points"; labels := Some ["up"; "down"]; title := "t";
     x_label := "time"; y_label := "v";
     xlims := Some (PyInt 10, PyInt 0); ylims := None;
     show := false; save := true; grid := true; savename := "out.png";
     linewidth := PyInt 2;
     formatfuncx := Some (@ps_time pyval); formatfuncy := None;
     invert := ["y"]; kwargs := [("s", VNum (PyInt 50))] |}.

Definition two_labels : options := with_labels ["a"; "b"] defaults.

Definition labelled_vlines : options := with_labels ["a"] (with_plotcase "vlines" defaults).

(** ** Checking a range of integers *)

Fixpoint upto (n : nat) : list Z :=
  match n with
  | O => []
  | S k => upto k ++ [Z.of_nat n]
  end.

Definition result_eqb (r : result string) (t : string) : bool :=
  match r with
  | Ok u => String.eqb u t
  | Raise _ => false
  end.

(** ** Further calls for the examples *)

Definition without_labels (o : options) : options :=
  {| plotcase := plotcase o; labels := None; title := title o; x_label := x_label o;
     y_label := y_label o; xlims := xlims o; ylims := ylims o; show := show o;
     save := save o; grid := grid o; savename := savename o; linewidth := linewidth o;
     formatfuncx := formatfuncx o; formatfuncy := formatfuncy o; invert := invert o;
     kwargs := kwargs o |}.

Definition with_savename (name : string) (o : options) : options :=
  {| plotcase := plotcase o; labels := labels o; title := title o; x_label := x_label o;
     y_label := y_label o; xlims := xlims o; ylims := ylims o; show := show o;
     save := save o; grid := grid o; savename := name; linewidth := linewidth o;
     formatfuncx := formatfuncx o; formatfuncy := formatfuncy o; invert := invert o;
     kwargs := kwargs o |}.

(** The state after one call with the defaults: the figure 1 is open. *)
Definition mpl1 : mpl := snd (plot_any host0 [one_series] defaults mpl0).

(** ** Numbers below zero *)

(** A number below zero: a negative integer, a negative finite double
    or the negative infinity (not the negative zero, not a NaN). *)
Definition is_negative (x : pynum) : bool :=
  match x with
  | PyInt z => z <? 0
  | PyFloat (S754_finite true _ _) => true
  | PyFloat (S754_infinity true) => true
  | PyFloat _ => false
  end.

Section Run.

Variable h : host.

Local Open Scope nat_scope.

(** ** Renderer calls and the drawing loop *)

Definition params : list (string * list string) :=
  [("lines", lines_params); ("points", points_params); ("vlines", vlines_params)].

(** A renderer takes the keyword list [kw]. *)
Definition accepts (pc : string) (kw : keywords) : bool :=
  match assoc pc params with
  | Some ps => check_kw ps kw && mem "color" (map fst kw)
  | None => false
  end.

(** The host call the renderer named [pc] makes, when it makes one. *)
Definition drawn (pc : string) (x y : list pynum) (kw : keywords) : draw_call :=
  let color := arg "color" VNone kw in
  let label := arg "label" VNone kw in
  if String.eqb pc "points" then
    AxScatter x y color label (arg "s" (VNum (PyInt 300)) kw) (arg "marker" (VStr "x") kw)
  else if String.eqb pc "vlines" then
    AxVlines x (arg "origin" (VNum (PyInt 0)) kw) y color
  else AxPlot x y color label.

(** The keywords of the call in iteration [index]. *)
Definition call_kw (color : string) (label : option string) (kwargs : keywords) : keywords :=
  ("color", VStr color) ::
  match label with
  | Some l => ("label", VStr l) :: kwargs
  | None => kwargs
  end.

Definition given {A} (o : option A) : bool :=
  match o with
  | Some _ => true
  | None => false
  end.

(** The extra options fit the renderer: whether they do depends on
    the names only. *)
Definition kwargs_fit (pc : string) (labelled : bool) (kwargs : keywords) : bool :=
  accepts pc (call_kw "" (if labelled then Some "" else None) kwargs).

Definition color_at (index : nat) : string := nth (index mod 10) colorcycle "".

Definition label_at (labels : option (list string)) (index : nat) : option string :=
  option_map (fun ls => nth index ls "") labels.

(** The draw calls of a loop that starts at [index], in order. *)
Fixpoint expected (pc : string) (labels : option (list string)) (kwargs : keywords)
         (index : nat) (vals : list (list (list pynum))) : list draw_call :=
  match vals with
  | [] => []
  | values :: rest =>
      drawn pc (nth 0 values []) (nth 1 values [])
            (call_kw (color_at index) (label_at labels index) kwargs)
      :: expected pc labels kwargs (S index) rest
  end.

Definition add_artists (ds : list draw_call) (a : axes) : axes :=
  fold_left (fun b d => add_artist d b) ds a.

(** ** The steps after the loop, as functions on the axes *)

Definition decorate (o : options) (a : axes) : axes :=
  let a1 := match xlims o with
            | Some (lo, hi) => set_x_inverted (lim_reversed h lo hi) (add_style (SetXlim lo hi) a)
            | None => a
            end in
  let a2 := match ylims o with
            | Some (lo, hi) => set_y_inverted (lim_reversed h lo hi) (add_style (SetYlim lo hi) a1)
            | None => a1
            end in
  add_style (Grid (grid o))
    (add_style (TickParams "x" "major" 7)
       (add_style (SetText (x_label o) (y_label o) (title o)) a2)).

Definition with_legend (o : options) (a : axes) : axes :=
  if truthy (labels o) then
    fold_left (fun b legobj => add_style (HandleLinewidth legobj lit_2_5) b)
              (legend_handles a)
              (add_style (Legend 25 "upper left" (1%Z, 1%Z) lit_0_1 false (legend_handles a)) a)
  else a.

Definition flip (a : axes) (axis : string) : axes :=
  if String.eqb axis "x" then set_x_inverted (negb (x_inverted a)) a
  else if String.eqb axis "y" then set_y_inverted (negb (y_inverted a)) a
  else a.

Definition flipped (invert : list string) (a : axes) : axes := fold_left flip invert a.

Definition with_formatters (o : options) (a : axes) : axes :=
  let a1 := match formatfuncx o with
            | Some f => add_style (MajorFormatter "x" f) a
            | None => a
            end in
  match formatfuncy o with
  | Some f => add_style (MajorFormatter "y" f) a1
  | None => a1
  end.

Definition final_axes (o : options) (a : axes) : axes :=
  with_formatters o (flipped (invert o) (with_legend o (decorate o a))).

(** The statements of [plot_any] after the drawing loop. *)
Definition finish (ax : nat) (o : options) : M unit :=
  (match xlims o with
   | Some (lo, hi) => ax_set_xlim h ax lo hi
   | None => ret tt
   end ;;
   match ylims o with
   | Some (lo, hi) => ax_set_ylim h ax lo hi
   | None => ret tt
   end ;;
   ax_style ax (SetText (x_label o) (y_label o) (title o)) ;;
   ax_style ax (TickParams "x" "major" 7) ;;
   ax_style ax (Grid (grid o)) ;;
   (if truthy (labels o)
    then leg <- ax_legend ax 25 "upper left" (1%Z, 1%Z) lit_0_1 false ;;
         set_linewidths ax lit_2_5 leg
    else ret tt) ;;
   invert_axes (invert o) ;;
   match formatfuncx o with
   | Some f => ax_style ax (MajorFormatter "x" f)
   | None => ret tt
   end ;;
   match formatfuncy o with
   | Some f => ax_style ax (MajorFormatter "y" f)
   | None => ret tt
   end ;;
   (if save o then savefig h (savename o) true else ret tt) ;;
   (if negb (show o) then close ax else ret tt) ;;
   ret tt)%mpl.

(** The state in which the loop starts: the two settings made, the
    new figure open and current. *)
Definition fresh_axes : axes := add_style (FigSize 24 18) empty_axes.

Definition started (o : options) (s : mpl) : mpl :=
  {| rc_linewidth := linewidth o; rc_fontsize := PyInt 30;
     created := S (created s); open_figs := created s :: open_figs s;
     axes_of := (created s, fresh_axes) :: axes_of s;
     files := files s |}.

(** The label list the loop works with. *)
Definition effective_labels (o : options) : option (list string) :=
  if truthy (labels o) then labels o else None.

Definition others (fig : nat) (op : list nat) : list nat :=
  filter (fun n => negb (Nat.eqb n fig)) op.

(** The host raises nothing in the steps after the loop: it accepts
    the limits given and can write the file of a call that saves. *)
Definition host_accepts (o : options) : bool :=
  match xlims o with
  | Some (lo, hi) => lim_ok h lo hi
  | None => true
  end &&
  match ylims o with
  | Some (lo, hi) => lim_ok h lo hi
  | None => true
  end &&
  (if save o then path_ok h (savename o) else true).

(** The artists the loop of a valid call leaves on the new axes. *)
Definition drawn_series (vals : list (list (list pynum))) (o : options) : list draw_call :=
  expected (plotcase o) (effective_labels o) (kwargs o) 0 vals.

(** A valid call: the plot kind is known and the extra options fit its
    renderer, every series has its two columns, a label list in use
    covers all series, and the host accepts the draw calls, the limits
    and the path. *)
Record valid_call (vals : list (list (list pynum))) (o : options) : Prop := {
  vc_kwargs : kwargs_fit (plotcase o) (truthy (labels o)) (kwargs o) = true;
  vc_series : Forall (fun v => 2 <= List.length v) vals;
  vc_labels : forall l ls, labels o = Some (l :: ls) ->
                           List.length vals <= List.length (l :: ls);
  vc_draw : forallb (draw_ok h) (drawn_series vals o) = true;
  vc_host : host_accepts o = true
}.

(** ** What every run keeps *)

(** The loop runs to its end: the conditions of a valid call that
    concern the drawing loop. *)
Definition loop_ok (vals : list (list (list pynum))) (o : options) : Prop :=
  kwargs_fit (plotcase o) (truthy (labels o)) (kwargs o) = true /\
  Forall (fun v => 2 <= List.length v) vals /\
  (forall l ls, labels o = Some (l :: ls) -> List.length vals <= List.length (l :: ls)) /\
  forallb (draw_ok h) (drawn_series vals o) = true.

(** The host state between [plt.subplots] and [plt.savefig] in a call
    made in state [s0]: the two settings are those of the call, one
    figure has been made, it is the current one, no file has been
    written and the axes of the other figures are as they were. *)
Definition during (o : options) (s0 s : mpl) : Prop :=
  rc_linewidth s = linewidth o /\
  rc_fontsize s = PyInt 30 /\
  created s = S (created s0) /\
  open_figs s = created s0 :: open_figs s0 /\
  files s = files s0 /\
  (forall n, n <> created s0 -> get_axes n (axes_of s) = get_axes n (axes_of s0)).

(** The host state after a call made in state [s0], by its result. *)
Definition outcome (o : options) (s0 : mpl) (r : result unit * mpl) : Prop :=
  rc_linewidth (snd r) = linewidth o /\
  rc_fontsize (snd r) = PyInt 30 /\
  created (snd r) = S (created s0) /\
  (forall n, n <> created s0 -> get_axes n (axes_of (snd r)) = get_axes n (axes_of s0)) /\
  match fst r with
  | Raise _ => open_figs (snd r) = created s0 :: open_figs s0 /\ files (snd r) = files s0
  | Ok _ =>
      open_figs (snd r) =
      (if show o then created s0 :: open_figs s0 else others (created s0) (open_figs s0)) /\
      if save o
      then exists img, img_fig img = created s0 /\ img_tight img = true /\
                       files (snd r) = (savename o, img) :: files s0
      else files (snd r) = files s0
  end.

(** The draw call of the loop for the series [v] at [index]. *)
Definition call_of (index : nat) (v : list (list pynum)) (o : options) : draw_call :=
  drawn (plotcase o) (nth 0 v []) (nth 1 v [])
        (call_kw (color_at index) (label_at (effective_labels o) index) (kwargs o)).

(** * Properties *)

(** ** Running host calls *)

Lemma mbind_ok {A B} (m : M A) (k : A -> M B) s a s' :
  m s = (Ok a, s') -> mbind m k s = k a s'.
Proof. intros H. unfold mbind. now rewrite H. Qed.

Lemma mbind_raise {A B} (m : M A) (k : A -> M B) s e s' :
  m s = (Raise e, s') -> mbind m k s = (Raise e, s').
Proof. intros H. unfold mbind. now rewrite H. Qed.

Lemma get_put_axes ax f l a :
  get_axes ax l = Some a -> get_axes ax (put_axes ax f l) = Some (f a).
Proof.
  induction l as [|[n b] l IH]; simpl; [discriminate|].
  destruct (Nat.eqb ax n) eqn:E; simpl; rewrite E; auto.
  now intros [= ->].
Qed.

Lemma on_axes_view ax f s a op fl :
  view ax s a op fl ->
  exists s', on_axes ax f s = (Ok tt, s') /\ view ax s' (f a) op fl.
Proof.
  intros (Ha & Ho & Hf). eexists. split; [reflexivity|].
  repeat split; simpl; auto using get_put_axes.
Qed.

(** ** One renderer call *)

Lemma ax_draw_view ax d s a op fl :
  draw_ok h d = true -> view ax s a op fl ->
  exists s', ax_draw h ax d s = (Ok tt, s') /\ view ax s' (add_artist d a) op fl.
Proof.
  intros Hd Hv. unfold ax_draw. rewrite Hd. now apply on_axes_view.
Qed.

Lemma ax_draw_refused ax d s :
  draw_ok h d = false -> ax_draw h ax d s = (Raise ValueError, s).
Proof. intros Hd. unfold ax_draw. now rewrite Hd. Qed.

Lemma known_kind pc ps :
  assoc pc params = Some ps ->
  (pc = "lines" /\ ps = lines_params) \/
  (pc = "points" /\ ps = points_params) \/
  (pc = "vlines" /\ ps = vlines_params).
Proof.
  unfold params. simpl.
  destruct (String.eqb pc "lines") eqn:E1;
    [apply String.eqb_eq in E1; intros [= <-]; auto|].
  destruct (String.eqb pc "points") eqn:E2;
    [apply String.eqb_eq in E2; intros [= <-]; auto|].
  destruct (String.eqb pc "vlines") eqn:E3;
    [apply String.eqb_eq in E3; intros [= <-]; auto|].
  discriminate.
Qed.

Lemma accepts_known pc kw :
  accepts pc kw = true -> exists f, getitem (exe_func h) pc = Ok f.
Proof.
  unfold accepts. destruct (assoc pc params) as [ps|] eqn:E; [|discriminate].
  intros _. destruct (known_kind _ _ E) as [[-> _]|[[-> _]|[-> _]]];
    eexists; reflexivity.
Qed.

Lemma renderer_view pc f ax x y kw s a op fl :
  getitem (exe_func h) pc = Ok f ->
  accepts pc kw = true ->
  draw_ok h (drawn pc x y kw) = true ->
  view ax s a op fl ->
  exists s', f ax x y kw s = (Ok tt, s') /\
             view ax s' (add_artist (drawn pc x y kw) a) op fl.
Proof.
  intros Hf Hacc Hd Hv. unfold accepts in Hacc.
  destruct (assoc pc params) as [ps|] eqn:E; [|discriminate].
  destruct (known_kind _ _ E) as [[-> ->]|[[-> ->]|[-> ->]]];
    injection Hf as <-;
    [unfold lines|unfold points|unfold vlines];
    rewrite Hacc; now apply ax_draw_view.
Qed.

Lemma renderer_type_error pc f ax x y kw s :
  getitem (exe_func h) pc = Ok f ->
  accepts pc kw = false ->
  f ax x y kw s = (Raise TypeError, s).
Proof.
  intros Hf Hacc. unfold accepts in Hacc.
  destruct (assoc pc params) as [ps|] eqn:E.
  - destruct (known_kind _ _ E) as [[-> ->]|[[-> ->]|[-> ->]]];
      injection Hf as <-;
      [unfold lines|unfold points|unfold vlines];
      now rewrite Hacc.
  - exfalso. revert Hf E. unfold getitem, exe_func, params. simpl.
    destruct (String.eqb pc "lines"); [discriminate|].
    destruct (String.eqb pc "points"); [discriminate|].
    destruct (String.eqb pc "vlines"); discriminate.
Qed.

(** ** The drawing loop *)

Lemma accepts_call_kw pc c l kwargs :
  accepts pc (call_kw c l kwargs) = kwargs_fit pc (given l) kwargs.
Proof.
  unfold kwargs_fit, accepts. destruct (assoc pc params); [|reflexivity].
  destruct l; reflexivity.
Qed.

Lemma subscript_nth {A} (l : list A) i d :
  i < List.length l -> subscript l i = Ok (nth i l d).
Proof.
  intros Hi. unfold subscript. now rewrite (nth_error_nth' l d Hi).
Qed.

Lemma subscript_out {A} (l : list A) i :
  List.length l <= i -> subscript l i = Raise IndexError.
Proof.
  intros Hi. unfold subscript.
  now rewrite (proj2 (nth_error_None l i) Hi).
Qed.

Lemma subscript_color index :
  subscript colorcycle (index mod List.length colorcycle) = Ok (color_at index).
Proof.
  apply subscript_nth. apply Nat.mod_upper_bound. discriminate.
Qed.

Lemma draw_all_view pc labels kwargs ax op fl vals :
  forall index s a,
    kwargs_fit pc (given labels) kwargs = true ->
    Forall (fun v => 2 <= List.length v) vals ->
    (forall ls, labels = Some ls -> index + List.length vals <= List.length ls) ->
    forallb (draw_ok h) (expected pc labels kwargs index vals) = true ->
    view ax s a op fl ->
    exists s',
      draw_all h ax pc labels kwargs index vals s = (Ok tt, s') /\
      view ax s' (add_artists (expected pc labels kwargs index vals) a) op fl.
Proof.
  induction vals as [|values rest IH]; intros index s a Hfit Hser Hlab Hhost Hv.
  - exists s. split; [reflexivity|exact Hv].
  - inversion Hser as [|v l Hlen Hrest]; subst.
    cbn [expected forallb] in Hhost. apply andb_prop in Hhost. destruct Hhost as [Hd Hhost].
    destruct (accepts_known pc _ Hfit) as [f Hf].
    assert (Hacc : accepts pc (call_kw (color_at index) (label_at labels index) kwargs) = true).
    { rewrite accepts_call_kw. now destruct labels. }
    destruct (renderer_view pc f ax (nth 0 values []) (nth 1 values []) _ s a op fl
                Hf Hacc Hd Hv) as (s1 & Hrun & Hv1).
    assert (Hlab' : forall ls, labels = Some ls ->
                               S index + List.length rest <= List.length ls).
    { intros ls Hls. specialize (Hlab ls Hls). simpl in Hlab. lia. }
    destruct (IH (S index) s1 _ Hfit Hrest Hlab' Hhost Hv1) as (s2 & Hrun2 & Hv2).
    exists s2. split; [|exact Hv2].
    cbn [draw_all]. unfold mbind at 1. unfold lift at 1. rewrite Hf.
    unfold mbind at 1. unfold lift at 1.
    rewrite (subscript_nth values 0 []) by lia.
    unfold mbind at 1. unfold lift at 1.
    rewrite (subscript_nth values 1 []) by lia.
    unfold mbind at 1. unfold lift at 1. rewrite subscript_color.
    destruct labels as [ls|].
    + specialize (Hlab ls eq_refl). simpl in Hlab.
      unfold mbind at 1. unfold mbind at 1. unfold lift at 1.
      rewrite (subscript_nth ls index "") by lia.
      unfold ret at 1. unfold mbind at 1.
      change (("color", VStr (color_at index)) :: ("label", VStr (nth index ls "")) :: kwargs)
        with (call_kw (color_at index) (label_at (Some ls) index) kwargs).
      rewrite Hrun. exact Hrun2.
    + unfold mbind at 1. unfold ret at 1. unfold mbind at 1.
      change (("color", VStr (color_at index)) :: kwargs)
        with (call_kw (color_at index) (label_at None index) kwargs).
      rewrite Hrun. exact Hrun2.
Qed.

(** An unknown plot kind stops the loop at its first iteration. *)
Lemma draw_all_unknown_kind pc labels kwargs ax index values rest s :
  getitem (exe_func h) pc = Raise KeyError ->
  draw_all h ax pc labels kwargs index (values :: rest) s = (Raise KeyError, s).
Proof.
  intros Hf. cbn [draw_all]. unfold mbind at 1. unfold lift at 1. now rewrite Hf.
Qed.

(** A label list that ends before the series do stops the loop at the
    first series without a label, after the series before it. *)
Lemma draw_all_labels_short pc ls kwargs ax op fl vals :
  forall index s a,
    kwargs_fit pc true kwargs = true ->
    Forall (fun v => 2 <= List.length v) vals ->
    index <= List.length ls < index + List.length vals ->
    forallb (draw_ok h)
            (expected pc (Some ls) kwargs index (firstn (List.length ls - index) vals)) = true ->
    view ax s a op fl ->
    exists s',
      draw_all h ax pc (Some ls) kwargs index vals s = (Raise IndexError, s') /\
      view ax s'
           (add_artists
              (expected pc (Some ls) kwargs index (firstn (List.length ls - index) vals)) a)
           op fl.
Proof.
  induction vals as [|values rest IH]; intros index s a Hfit Hser Hlen Hhost Hv.
  - simpl in Hlen. lia.
  - inversion Hser as [|v l Hlen2 Hrest]; subst.
    destruct (accepts_known pc _ Hfit) as [f Hf].
    cbn [draw_all]. unfold mbind at 1. unfold lift at 1. rewrite Hf.
    unfold mbind at 1. unfold lift at 1.
    rewrite (subscript_nth values 0 []) by lia.
    unfold mbind at 1. unfold lift at 1.
    rewrite (subscript_nth values 1 []) by lia.
    unfold mbind at 1. unfold lift at 1. rewrite subscript_color.
    unfold mbind at 1. unfold mbind at 1. unfold lift at 1.
    destruct (Nat.eq_dec index (List.length ls)) as [Heq|Hne].
    + rewrite subscript_out by lia.
      exists s. split; [reflexivity|].
      replace (List.length ls - index) with 0 by lia. exact Hv.
    + rewrite (subscript_nth ls index "") by lia.
      unfold ret at 1. unfold mbind at 1.
      replace (List.length ls - index) with (S (List.length ls - S index)) in Hhost by lia.
      cbn [firstn expected forallb] in Hhost.
      apply andb_prop in Hhost. destruct Hhost as [Hd Hhost].
      assert (Hacc : accepts pc (call_kw (color_at index) (label_at (Some ls) index) kwargs)
                     = true) by now rewrite accepts_call_kw.
      destruct (renderer_view pc f ax (nth 0 values []) (nth 1 values []) _ s a op fl
                  Hf Hacc Hd Hv) as (s1 & Hrun & Hv1).
      change (("color", VStr (color_at index)) :: ("label", VStr (nth index ls "")) :: kwargs)
        with (call_kw (color_at index) (label_at (Some ls) index) kwargs).
      rewrite Hrun.
      assert (Hlen' : S index <= List.length ls < S index + List.length rest)
        by (simpl in Hlen; lia).
      destruct (IH (S index) s1 _ Hfit Hrest Hlen' Hhost Hv1) as (s2 & Hrun2 & Hv2).
      exists s2. split; [exact Hrun2|].
      replace (List.length ls - index) with (S (List.length ls - S index)) by lia.
      exact Hv2.
Qed.

(** ** The steps after the loop *)

Lemma plot_any_unfold vals o s :
  plot_any h vals o s =
  match draw_all h (created s) (plotcase o) (effective_labels o) (kwargs o) 0 vals
                 (started o s) with
  | (Ok _, s1) => finish (created s) o s1
  | (Raise e, s1) => (Raise e, s1)
  end.
Proof.
  unfold plot_any, effective_labels.
  unfold mbind at 1. unfold mbind at 1. unfold mbind at 1. unfold mbind at 1.
  cbn [set_rc_linewidth set_rc_fontsize modify subplots new_figure created rc_linewidth
       rc_fontsize open_figs axes_of files].
  fold (started o s). unfold finish.
  destruct (truthy (labels o)); reflexivity.
Qed.

Lemma started_view o s :
  view (created s) (started o s) fresh_axes (created s :: open_figs s) (files s).
Proof.
  repeat split. simpl. now rewrite Nat.eqb_refl.
Qed.

Lemma ret_view ax s a op fl :
  view ax s a op fl ->
  exists s', ret tt s = (Ok tt, s') /\ view ax s' a op fl.
Proof. intros Hv. exists s. now split. Qed.

Lemma ax_legend_view ax fs loc anchor pad frameon s a op fl :
  view ax s a op fl ->
  exists s',
    ax_legend ax fs loc anchor pad frameon s = (Ok (legend_handles a), s') /\
    view ax s' (add_style (Legend fs loc anchor pad frameon (legend_handles a)) a) op fl.
Proof.
  intros Hv. unfold ax_legend. destruct Hv as (Ha & Ho & Hf). rewrite Ha.
  destruct (on_axes_view ax (add_style (Legend fs loc anchor pad frameon (legend_handles a)))
              s a op fl) as (s' & Hrun & Hv'); [now repeat split|].
  unfold ax_style. rewrite Hrun. now exists s'.
Qed.

Lemma set_linewidths_view ax w hs :
  forall s a op fl,
    view ax s a op fl ->
    exists s',
      set_linewidths ax w hs s = (Ok tt, s') /\
      view ax s' (fold_left (fun b legobj => add_style (HandleLinewidth legobj w) b) hs a)
           op fl.
Proof.
  induction hs as [|hd hs IH]; intros s a op fl Hv.
  - now apply ret_view.
  - destruct (on_axes_view ax (add_style (HandleLinewidth hd w)) s a op fl Hv)
      as (s1 & Hrun & Hv1).
    destruct (IH s1 _ op fl Hv1) as (s2 & Hrun2 & Hv2).
    exists s2. split; [|exact Hv2].
    cbn [set_linewidths]. unfold ax_style. now rewrite (mbind_ok _ _ _ _ _ Hrun).
Qed.

Lemma gca_current ax s a op fl :
  view ax s a (ax :: op) fl -> gca s = (Ok ax, s).
Proof. intros (_ & Ho & _). unfold gca. now rewrite Ho. Qed.

Lemma invert_axes_view ax op fl invert :
  forall s a,
    view ax s a (ax :: op) fl ->
    exists s',
      invert_axes invert s = (Ok tt, s') /\ view ax s' (flipped invert a) (ax :: op) fl.
Proof.
  induction invert as [|axis rest IH]; intros s a Hv.
  - now apply ret_view.
  - assert (Hstep : exists s1,
               (if String.eqb axis "x" then mbind gca (fun g => invert_xaxis g)
                else if String.eqb axis "y" then mbind gca (fun g => invert_yaxis g)
                else ret tt) s = (Ok tt, s1) /\
               view ax s1 (flip a axis) (ax :: op) fl).
    { unfold flip.
      destruct (String.eqb axis "x"); [|destruct (String.eqb axis "y")].
      - rewrite (mbind_ok _ _ _ _ _ (gca_current _ _ _ _ _ Hv)).
        exact (on_axes_view ax (fun b => set_x_inverted (negb (x_inverted b)) b) _ _ _ _ Hv).
      - rewrite (mbind_ok _ _ _ _ _ (gca_current _ _ _ _ _ Hv)).
        exact (on_axes_view ax (fun b => set_y_inverted (negb (y_inverted b)) b) _ _ _ _ Hv).
      - now apply ret_view. }
    destruct Hstep as (s1 & Hrun & Hv1).
    destruct (IH s1 _ Hv1) as (s2 & Hrun2 & Hv2).
    exists s2. split; [|exact Hv2].
    cbn [invert_axes]. now rewrite (mbind_ok _ _ _ _ _ Hrun).
Qed.

Lemma savefig_view ax name tight s a op fl :
  path_ok h name = true ->
  view ax s a (ax :: op) fl ->
  exists s',
    savefig h name tight s = (Ok tt, s') /\
    view ax s' a (ax :: op)
         ((name, {| img_fig := ax; img_tight := tight; img_content := a |}) :: fl).
Proof.
  intros Hp Hv. unfold savefig.
  rewrite (mbind_ok _ _ _ _ _ (gca_current _ _ _ _ _ Hv)).
  destruct Hv as (Ha & Ho & Hf). rewrite Hp, Ha.
  eexists. split; [reflexivity|]. repeat split; simpl; congruence.
Qed.

Lemma savefig_refused name tight s :
  path_ok h name = false -> fst (savefig h name tight s) = Raise OSError.
Proof.
  intros Hp. unfold savefig, mbind, gca.
  destruct (open_figs s); simpl; now rewrite Hp.
Qed.

Lemma close_view ax s a op fl :
  view ax s a (ax :: op) fl ->
  exists s', close ax s = (Ok tt, s') /\ view ax s' a (others ax op) fl.
Proof.
  intros (Ha & Ho & Hf). eexists. split; [reflexivity|].
  repeat split; simpl; auto. rewrite Ho. simpl. now rewrite Nat.eqb_refl.
Qed.

Ltac after_step H :=
  let s1 := fresh "s" in
  let R := fresh "R" in
  let V := fresh "V" in
  destruct H as (s1 & R & V); rewrite (mbind_ok _ _ _ _ _ R); clear R.

(** The steps after the loop complete when the file can be written. *)
Lemma finish_view ax o s a op fl :
  host_accepts o = true ->
  view ax s a (ax :: op) fl ->
  exists s',
    finish ax o s = (Ok tt, s') /\
    view ax s' (final_axes o a)
         (if show o then ax :: op else others ax op)
         (if save o
          then (savename o, {| img_fig := ax; img_tight := true;
                               img_content := final_axes o a |}) :: fl
          else fl).
Proof.
  intros Hhost Hv. unfold host_accepts in Hhost.
  apply andb_prop in Hhost. destruct Hhost as [Hhost Hpath].
  apply andb_prop in Hhost. destruct Hhost as [Hxlim Hylim].
  unfold finish, final_axes, with_formatters, with_legend, decorate.
  set (a1 := match xlims o with
             | Some (lo, hi) => set_x_inverted (lim_reversed h lo hi) (add_style (SetXlim lo hi) a)
             | None => a
             end).
  assert (S1 : exists s1,
             match xlims o with
             | Some (lo, hi) => ax_set_xlim h ax lo hi
             | None => ret tt
             end s = (Ok tt, s1) /\ view ax s1 a1 (ax :: op) fl).
  { subst a1. destruct (xlims o) as [[lo hi]|]; [|now apply ret_view].
    unfold ax_set_xlim. rewrite Hxlim.
    exact (on_axes_view ax (fun b => set_x_inverted (lim_reversed h lo hi)
                                       (add_style (SetXlim lo hi) b)) _ _ _ _ Hv). }
  after_step S1.
  set (a2 := match ylims o with
             | Some (lo, hi) => set_y_inverted (lim_reversed h lo hi) (add_style (SetYlim lo hi) a1)
             | None => a1
             end).
  assert (S2 : exists s2,
             match ylims o with
             | Some (lo, hi) => ax_set_ylim h ax lo hi
             | None => ret tt
             end s0 = (Ok tt, s2) /\ view ax s2 a2 (ax :: op) fl).
  { subst a2. destruct (ylims o) as [[lo hi]|]; [|now apply ret_view].
    unfold ax_set_ylim. rewrite Hylim.
    exact (on_axes_view ax (fun b => set_y_inverted (lim_reversed h lo hi)
                                       (add_style (SetYlim lo hi) b)) _ _ _ _ V). }
  clear V. after_step S2.
  pose proof (on_axes_view ax (add_style (SetText (x_label o) (y_label o) (title o)))
                _ _ _ _ V) as S3.
  clear V. after_step S3.
  pose proof (on_axes_view ax (add_style (TickParams "x" "major" 7)) _ _ _ _ V) as S4.
  clear V. after_step S4.
  pose proof (on_axes_view ax (add_style (Grid (grid o))) _ _ _ _ V) as S5.
  clear V. after_step S5.
  set (a5 := add_style (Grid (grid o)) _) in *.
  set (a6 := if truthy (labels o) then _ else a5).
  assert (S6 : exists s6,
             (if truthy (labels o)
              then mbind (ax_legend ax 25 "upper left" (1%Z, 1%Z) lit_0_1 false)
                         (fun leg => set_linewidths ax lit_2_5 leg)
              else ret tt) s4 = (Ok tt, s6) /\ view ax s6 a6 (ax :: op) fl).
  { subst a6. destruct (truthy (labels o)); [|now apply ret_view].
    destruct (ax_legend_view ax 25 "upper left" (1%Z, 1%Z) lit_0_1 false _ _ _ _ V)
      as (s5 & R5 & V5).
    rewrite (mbind_ok _ _ _ _ _ R5). now apply set_linewidths_view. }
  clear V. after_step S6.
  pose proof (invert_axes_view ax op fl (invert o) _ _ V) as S7.
  clear V. after_step S7.
  set (a7 := flipped (invert o) a6) in *.
  set (a8 := match formatfuncx o with
             | Some f => add_style (MajorFormatter "x" f) a7
             | None => a7
             end).
  assert (S8 : exists s8,
             match formatfuncx o with
             | Some f => ax_style ax (MajorFormatter "x" f)
             | None => ret tt
             end s6 = (Ok tt, s8) /\ view ax s8 a8 (ax :: op) fl).
  { subst a8. destruct (formatfuncx o) as [f|]; [|now apply ret_view].
    exact (on_axes_view ax (add_style (MajorFormatter "x" f)) _ _ _ _ V). }
  clear V. after_step S8.
  set (a9 := match formatfuncy o with
             | Some f => add_style (MajorFormatter "y" f) a8
             | None => a8
             end).
  assert (S9 : exists s9,
             match formatfuncy o with
             | Some f => ax_style ax (MajorFormatter "y" f)
             | None => ret tt
             end s7 = (Ok tt, s9) /\ view ax s9 a9 (ax :: op) fl).
  { subst a9. destruct (formatfuncy o) as [f|]; [|now apply ret_view].
    exact (on_axes_view ax (add_style (MajorFormatter "y" f)) _ _ _ _ V). }
  clear V. after_step S9.
  set (fl' := if save o then _ else fl).
  assert (S10 : exists s10,
             (if save o then savefig h (savename o) true else ret tt) s8 = (Ok tt, s10) /\
             view ax s10 a9 (ax :: op) fl').
  { subst fl'. destruct (save o); [|now apply ret_view].
    now apply savefig_view. }
  clear V. after_step S10.
  assert (S11 : exists s11,
             (if negb (show o) then close ax else ret tt) s9 = (Ok tt, s11) /\
             view ax s11 a9 (if show o then ax :: op else others ax op) fl').
  { destruct (show o); [now apply ret_view|]. now apply close_view. }
  clear V. after_step S11.
  now apply ret_view.
Qed.

(** ** A valid call *)

Lemma given_effective_labels o : given (effective_labels o) = truthy (labels o).
Proof.
  unfold effective_labels. destruct (labels o) as [[|l ls]|]; reflexivity.
Qed.

Lemma plot_any_view vals o s :
  valid_call vals o ->
  exists s',
    plot_any h vals o s = (Ok tt, s') /\
    view (created s) s'
         (final_axes o (add_artists (drawn_series vals o) fresh_axes))
         (if show o then created s :: open_figs s else others (created s) (open_figs s))
         (if save o
          then (savename o,
                {| img_fig := created s; img_tight := true;
                   img_content :=
                     final_axes o (add_artists (drawn_series vals o) fresh_axes) |})
                 :: files s
          else files s).
Proof.
  intros [Hkw Hser Hlab Hdraw Hhost]. rewrite plot_any_unfold.
  destruct (draw_all_view (plotcase o) (effective_labels o) (kwargs o) (created s)
              (created s :: open_figs s) (files s) vals 0 (started o s) fresh_axes)
    as (s1 & R1 & V1); auto using started_view.
  - now rewrite given_effective_labels.
  - unfold effective_labels. intros ls. destruct (labels o) as [[|l l0]|] eqn:E; try discriminate.
    intros [= <-]. apply (Hlab _ _ eq_refl).
  - rewrite R1. now apply finish_view.
Qed.

(** ** What the steps after the loop keep *)

Lemma artists_fold_style {A} (f : A -> style_call) l a :
  artists (fold_left (fun b x => add_style (f x) b) l a) = artists a.
Proof. revert a. induction l as [|x l IH]; intros a; simpl; [reflexivity|now rewrite IH]. Qed.

Lemma artists_flip a axis : artists (flip a axis) = artists a.
Proof.
  unfold flip. destruct (String.eqb axis "x"); [reflexivity|].
  destruct (String.eqb axis "y"); reflexivity.
Qed.

Lemma artists_flipped l a : artists (flipped l a) = artists a.
Proof.
  revert a. induction l as [|x l IH]; intros a; simpl; [reflexivity|].
  unfold flipped in IH. now rewrite IH, artists_flip.
Qed.

Lemma artists_final_axes o a : artists (final_axes o a) = artists a.
Proof.
  unfold final_axes, with_formatters, with_legend, decorate.
  destruct (formatfuncy o), (formatfuncx o); simpl; rewrite artists_flipped;
    (destruct (truthy (labels o)); [rewrite artists_fold_style|]; simpl;
     destruct (ylims o) as [[? ?]|], (xlims o) as [[? ?]|]; reflexivity).
Qed.

Lemma artists_add_artists ds a : artists (add_artists ds a) = (artists a ++ ds)%list.
Proof.
  revert a. induction ds as [|d ds IH]; intros a; simpl.
  - now rewrite app_nil_r.
  - unfold add_artists in IH. rewrite IH. simpl. now rewrite <- app_assoc.
Qed.

Lemma styles_add_artists ds a : styles (add_artists ds a) = styles a.
Proof.
  revert a. induction ds as [|d ds IH]; intros a; simpl; [reflexivity|].
  unfold add_artists in IH. now rewrite IH.
Qed.

(** ** The draw calls of the loop *)

Lemma drawn_color pc x y c l kwargs : color_of (drawn pc x y (call_kw c l kwargs)) = VStr c.
Proof.
  unfold drawn. destruct (String.eqb pc "points"); [reflexivity|].
  destruct (String.eqb pc "vlines"); reflexivity.
Qed.

Lemma drawn_data pc x y kw : xs_of (drawn pc x y kw) = x /\ ys_of (drawn pc x y kw) = y.
Proof.
  unfold drawn. destruct (String.eqb pc "points"); [now split|].
  destruct (String.eqb pc "vlines"); now split.
Qed.

Lemma expected_length pc labels kwargs vals :
  forall index, List.length (expected pc labels kwargs index vals) = List.length vals.
Proof. induction vals as [|v vals IH]; intros index; simpl; [reflexivity|now rewrite IH]. Qed.

Lemma expected_nth pc labels kwargs vals :
  forall index i values,
    nth_error vals i = Some values ->
    nth_error (expected pc labels kwargs index vals) i =
    Some (drawn pc (nth 0 values []) (nth 1 values [])
                (call_kw (color_at (index + i)) (label_at labels (index + i)) kwargs)).
Proof.
  induction vals as [|v vals IH]; intros index i values Hi.
  - destruct i; discriminate.
  - destruct i as [|i]; simpl in *.
    + injection Hi as <-. now rewrite Nat.add_0_r.
    + rewrite (IH (S index) i values Hi). now rewrite Nat.add_succ_r.
Qed.

End Run.

(** ** The claims about [plot_any] *)

Local Open Scope nat_scope.

(** Series of two columns of equal length make a valid call with the
    default options. *)
Lemma valid_defaults vals :
  forallb (fun v => match v with
                    | x :: y :: _ => Nat.eqb (List.length x) (List.length y)
                    | _ => false
                    end) vals = true ->
  valid_call host0 vals defaults.
Proof.
  intros H. split; try reflexivity; try discriminate.
  - rewrite forallb_forall in H. apply Forall_forall. intros v Hv.
    specialize (H v Hv). destruct v as [|x [|y v]]; try discriminate. simpl. lia.
  - unfold drawn_series. generalize 0 at 1. cbn [plotcase kwargs defaults].
    change (effective_labels defaults) with (@None (list string)).
    induction vals as [|v vals IH]; intros index; [reflexivity|].
    cbn [forallb] in H. apply andb_prop in H. destruct H as [Hv H].
    cbn [expected forallb]. rewrite (IH H), andb_true_r.
    destruct v as [|x [|y v]]; try discriminate. exact Hv.
Qed.

(** C3: a valid call draws every series once and in order, the series at
    index [i] in the colour [colorcycle[i mod 10]]; the series 0 and 10
    get the same colour. *)
Theorem plot_any_draws_each_series h vals o s :
  valid_call h vals o ->
  exists s' a,
    plot_any h vals o s = (Ok tt, s') /\
    get_axes (created s) (axes_of s') = Some a /\
    List.length (artists a) = List.length vals /\
    (forall i values,
        nth_error vals i = Some values ->
        exists d,
          nth_error (artists a) i = Some d /\
          color_of d = VStr (nth (i mod 10) colorcycle "") /\
          nth_error values 0 = Some (xs_of d) /\
          nth_error values 1 = Some (ys_of d)) /\
    (forall d0 d10,
        nth_error (artists a) 0 = Some d0 ->
        nth_error (artists a) 10 = Some d10 ->
        color_of d0 = color_of d10).
Proof.
  intros Hvalid.
  destruct (plot_any_view h vals o s Hvalid) as (s' & Hrun & Ha & _).
  exists s', (final_axes h o (add_artists (drawn_series vals o) fresh_axes)).
  assert (Harts : artists (final_axes h o (add_artists (drawn_series vals o) fresh_axes))
                  = drawn_series vals o).
  { now rewrite artists_final_axes, artists_add_artists. }
  rewrite Harts. unfold drawn_series.
  assert (Hnth : forall i values,
             nth_error vals i = Some values ->
             exists d,
               nth_error (expected (plotcase o) (effective_labels o) (kwargs o) 0 vals) i
               = Some d /\
               color_of d = VStr (nth (i mod 10) colorcycle "") /\
               nth_error values 0 = Some (xs_of d) /\
               nth_error values 1 = Some (ys_of d)).
  { intros i values Hi. eexists. split; [apply expected_nth; exact Hi|].
    split; [rewrite drawn_color; reflexivity|].
    assert (Hlen : 2 <= List.length values).
    { destruct Hvalid as [_ Hser _ _ _]. rewrite Forall_forall in Hser.
      apply Hser. eapply nth_error_In; eauto. }
    destruct (drawn_data (plotcase o) (nth 0 values []) (nth 1 values [])
                (call_kw (color_at (0 + i)) (label_at (effective_labels o) (0 + i)) (kwargs o)))
      as [-> ->].
    split; apply nth_error_nth'; lia. }
  repeat split; auto.
  - apply expected_length.
  - intros d0 d10 H0 H10.
    destruct (nth_error vals 0) as [v0|] eqn:E0.
    2:{ apply nth_error_None in E0. rewrite <- (expected_length (plotcase o)
          (effective_labels o) (kwargs o) vals 0) in E0.
        apply nth_error_None in E0. congruence. }
    destruct (nth_error vals 10) as [v10|] eqn:E10.
    2:{ apply nth_error_None in E10. rewrite <- (expected_length (plotcase o)
          (effective_labels o) (kwargs o) vals 0) in E10.
        apply nth_error_None in E10. congruence. }
    destruct (Hnth 0 v0 E0) as (d & Hd & Hc & _).
    destruct (Hnth 10 v10 E10) as (d' & Hd' & Hc' & _).
    rewrite H0 in Hd. rewrite H10 in Hd'. injection Hd as <-. injection Hd' as <-.
    now rewrite Hc, Hc'.
Qed.

Lemma plot_any_draws_each_series_witness :
  valid_call host0 (repeat one_series 11) defaults /\
  exists s' a,
    plot_any host0 (repeat one_series 11) defaults mpl0 = (Ok tt, s') /\
    get_axes (created mpl0) (axes_of s') = Some a /\
    List.length (artists a) = List.length (repeat one_series 11) /\
    (forall i values,
        nth_error (repeat one_series 11) i = Some values ->
        exists d,
          nth_error (artists a) i = Some d /\
          color_of d = VStr (nth (i mod 10) colorcycle "") /\
          nth_error values 0 = Some (xs_of d) /\
          nth_error values 1 = Some (ys_of d)) /\
    (forall d0 d10,
        nth_error (artists a) 0 = Some d0 ->
        nth_error (artists a) 10 = Some d10 ->
        color_of d0 = color_of d10).
Proof.
  assert (Hvalid : valid_call host0 (repeat one_series 11) defaults).
  { split; [reflexivity|repeat constructor|discriminate|reflexivity|reflexivity]. }
  split; [exact Hvalid|].
  exact (plot_any_draws_each_series host0 (repeat one_series 11) defaults mpl0 Hvalid).
Defined.

(** *** Unknown plot kinds *)

Lemma unknown_kind h pc :
  ~ In pc ["lines"; "points"; "vlines"] -> getitem (exe_func h) pc = Raise KeyError.
Proof.
  intros Hn. unfold getitem, exe_func. simpl.
  destruct (String.eqb pc "lines") eqn:E1;
    [apply String.eqb_eq in E1; exfalso; apply Hn; simpl; auto|].
  destruct (String.eqb pc "points") eqn:E2;
    [apply String.eqb_eq in E2; exfalso; apply Hn; simpl; auto|].
  destruct (String.eqb pc "vlines") eqn:E3;
    [apply String.eqb_eq in E3; exfalso; apply Hn; simpl; auto|].
  reflexivity.
Qed.

Lemma bars_unknown : ~ In "bars" ["lines"; "points"; "vlines"].
Proof. intros [H|[H|[H|[]]]]; discriminate. Qed.

(** C5, as the code has it: with at least one series, a plot kind
    outside lines, points and vlines raises [KeyError] at the first
    series, and nothing has been drawn on the new axes. *)
Theorem plot_any_unknown_kind h vals o s :
  vals <> [] ->
  ~ In (plotcase o) ["lines"; "points"; "vlines"] ->
  exists s' a,
    plot_any h vals o s = (Raise KeyError, s') /\
    get_axes (created s) (axes_of s') = Some a /\
    artists a = [].
Proof.
  intros Hne Hpc. destruct vals as [|values rest]; [congruence|].
  rewrite plot_any_unfold.
  rewrite (draw_all_unknown_kind h _ _ _ _ _ _ _ _ (unknown_kind h _ Hpc)).
  exists (started o s), fresh_axes. repeat split.
  apply (started_view o s).
Qed.

Lemma plot_any_unknown_kind_witness :
  [one_series] <> [] /\
  ~ In (plotcase (with_plotcase "bars" defaults)) ["lines"; "points"; "vlines"] /\
  exists s' a,
    plot_any host0 [one_series] (with_plotcase "bars" defaults) mpl0 = (Raise KeyError, s') /\
    get_axes (created mpl0) (axes_of s') = Some a /\
    artists a = [].
Proof.
  split; [discriminate|]. split; [exact bars_unknown|].
  apply (plot_any_unknown_kind host0 [one_series] (with_plotcase "bars" defaults) mpl0).
  - discriminate.
  - exact bars_unknown.
Defined.

(** C5 as stated fails without series: the loop body, and with it the
    table lookup, never runs. *)
Lemma plot_any_unknown_kind_not_signalled :
  ~ In (plotcase (with_plotcase "bars" defaults)) ["lines"; "points"; "vlines"] /\
  fst (plot_any host0 [] (with_plotcase "bars" defaults) mpl0) = Ok tt.
Proof. split; [exact bars_unknown|vm_compute; reflexivity]. Qed.

(** *** Labels and series of different length *)

Lemma forallb_expected_firstn (P : draw_call -> bool) pc labels kwargs n vals :
  forall index,
    forallb P (expected pc labels kwargs index vals) = true ->
    forallb P (expected pc labels kwargs index (firstn n vals)) = true.
Proof.
  revert n. induction vals as [|v vals IH]; intros n index H.
  - now destruct n.
  - destruct n as [|n]; [reflexivity|].
    cbn [firstn expected forallb] in *. apply andb_prop in H. destruct H as [H1 H2].
    now rewrite H1, (IH n (S index) H2).
Qed.

(** C4, as the code has it: a label list in use that is shorter than
    the series collection raises [IndexError] in the drawing loop, at the
    first series without a label: the series before it are drawn and
    the legend step is never reached.  A label list that is longer
    raises nothing when the host raises nothing: the call completes with
    every series drawn. *)
Theorem plot_any_label_count h vals o s l ls :
  labels o = Some (l :: ls) ->
  kwargs_fit (plotcase o) true (kwargs o) = true ->
  Forall (fun v => 2 <= List.length v) vals ->
  forallb (draw_ok h) (drawn_series vals o) = true ->
  (List.length (l :: ls) < List.length vals ->
   exists s' a,
     plot_any h vals o s = (Raise IndexError, s') /\
     get_axes (created s) (axes_of s') = Some a /\
     List.length (artists a) = List.length (l :: ls) /\
     styles a = [FigSize 24 18]) /\
  (List.length vals < List.length (l :: ls) ->
   host_accepts h o = true ->
   exists s' a,
     plot_any h vals o s = (Ok tt, s') /\
     get_axes (created s) (axes_of s') = Some a /\
     List.length (artists a) = List.length vals).
Proof.
  intros Hl Hkw Hser Hdraw.
  assert (Heff : effective_labels o = Some (l :: ls))
    by (unfold effective_labels; now rewrite Hl).
  split.
  - intros Hlen. rewrite plot_any_unfold.
    unfold drawn_series in Hdraw. rewrite Heff in *.
    destruct (draw_all_labels_short h (plotcase o) (l :: ls) (kwargs o) (created s)
                (created s :: open_figs s) (files s) vals 0 (started o s) fresh_axes)
      as (s1 & R1 & V1 & _); auto using started_view, forallb_expected_firstn; [lia|].
    rewrite R1. eexists. eexists. split; [reflexivity|]. split; [exact V1|].
    split.
    + rewrite artists_add_artists, Nat.sub_0_r. simpl artists. rewrite app_nil_l.
      rewrite expected_length, length_firstn. lia.
    + now rewrite styles_add_artists.
  - intros Hlen Hhost. destruct (plot_any_view h vals o s) as (s' & Hrun & Ha & _).
    + split; auto.
      * now rewrite Hl.
      * intros l' ls' E. rewrite Hl in E. injection E as <- <-. lia.
    + eexists. eexists. split; [exact Hrun|]. split; [exact Ha|].
      rewrite artists_final_axes, artists_add_artists. apply expected_length.
Qed.

Lemma plot_any_label_count_witness :
  labels two_labels = Some ["a"; "b"] /\
  List.length ["a"; "b"] < List.length (repeat one_series 3) /\
  exists s' a,
    plot_any host0 (repeat one_series 3) two_labels mpl0 = (Raise IndexError, s') /\
    get_axes (created mpl0) (axes_of s') = Some a /\
    List.length (artists a) = List.length ["a"; "b"] /\
    styles a = [FigSize 24 18].
Proof.
  split; [reflexivity|]. split; [simpl; lia|].
  apply (plot_any_label_count host0 (repeat one_series 3) two_labels mpl0 "a" ["b"]).
  - reflexivity.
  - reflexivity.
  - repeat constructor.
  - reflexivity.
  - simpl. lia.
Defined.

(** C4 as stated fails for a label list longer than the series
    collection: the call completes, the legend step included. *)
Lemma plot_any_surplus_labels_accepted :
  List.length ["a"; "b"] <> List.length [one_series] /\
  fst (plot_any host0 [one_series] two_labels mpl0) = Ok tt.
Proof. split; [discriminate|vm_compute; reflexivity]. Qed.

(** *** Examples *)

(** The host refuses columns of unequal length: the error of the draw
    primitive ends the call, with the series before it drawn. *)
Lemma plot_any_ragged_series :
  let r := plot_any host0 [one_series; ragged_series] defaults mpl0 in
  fst r = Raise ValueError /\
  option_map (fun a => List.length (artists a)) (new_axes mpl0 r) = Some 1 /\
  open_figs (snd r) = [created mpl0].
Proof. vm_compute. repeat split. Qed.

(** An option the renderer does not take is a [TypeError] of the call. *)
Lemma plot_any_unexpected_option :
  fst (plot_any host0 [one_series] scatter_call mpl0) = Ok tt /\
  fst (plot_any host0 [one_series] (with_plotcase "lines" scatter_call) mpl0)
  = Raise TypeError.
Proof. vm_compute. split; reflexivity. Qed.

(** A call with most options in use. *)
Lemma plot_any_scatter_call :
  let r := plot_any host0 [one_series; one_series] scatter_call mpl0 in
  fst r = Ok tt /\
  option_map artists (new_axes mpl0 r) =
  Some [AxScatter [PyInt 1; PyInt 2; PyInt 3] [PyInt 3; PyInt 2; PyInt 1]
                  (VStr "C0") (VStr "up") (VNum (PyInt 50)) (VStr "x");
        AxScatter [PyInt 1; PyInt 2; PyInt 3] [PyInt 3; PyInt 2; PyInt 1]
                  (VStr "C1") (VStr "down") (VNum (PyInt 50)) (VStr "x")] /\
  option_map legend_handles (new_axes mpl0 r) = Some [VStr "up"; VStr "down"] /\
  option_map x_inverted (new_axes mpl0 r) = Some true /\
  option_map y_inverted (new_axes mpl0 r) = Some true /\
  open_figs (snd r) = [] /\
  option_map img_tight (assoc "out.png" (files (snd r))) = Some true.
Proof. vm_compute. repeat split. Qed.

(** *** Labels at the draw primitives *)


(** [vlines] takes the label and calls [ax.vlines] without it. *)
Lemma vlines_call_has_no_label x y kw : label_of (drawn "vlines" x y kw) = VNone.
Proof. reflexivity. Qed.

(** C6 at [plot_any([[[1, 2, 3], [3, 2, 1]]], plotcase='vlines', labels=['a'])]:
    the call completes, the one artist is drawn without a label and the
    legend has no handle. *)
Theorem plot_any_vlines_label_dropped :
  let r := plot_any host0 [one_series] labelled_vlines mpl0 in
  fst r = Ok tt /\
  option_map artists (new_axes mpl0 r) =
  Some [AxVlines [PyInt 1; PyInt 2; PyInt 3] (VNum (PyInt 0))
                 [PyInt 3; PyInt 2; PyInt 1] (VStr "C0")] /\
  option_map (fun a => map label_of (artists a)) (new_axes mpl0 r) = Some [VNone] /\
  option_map legend_handles (new_axes mpl0 r) = Some [].
Proof. vm_compute. repeat split. Qed.

(** The same call with [plotcase='lines'] carries the label. *)
Lemma plot_any_lines_label_kept :
  let r := plot_any host0 [one_series] (with_labels ["a"] defaults) mpl0 in
  fst r = Ok tt /\
  option_map (fun a => map label_of (artists a)) (new_axes mpl0 r) = Some [VStr "a"] /\
  option_map legend_handles (new_axes mpl0 r) = Some [VStr "a"].
Proof. vm_compute. repeat split. Qed.

(** *** Inverted axes *)

Lemma valid_with_invert h vals o inv :
  valid_call h vals o -> valid_call h vals (with_invert inv o).
Proof. intros [H1 H2 H3 H4 H5]. split; assumption. Qed.

Lemma directions_with_formatters o a :
  x_inverted (with_formatters o a) = x_inverted a /\
  y_inverted (with_formatters o a) = y_inverted a.
Proof.
  unfold with_formatters. destruct (formatfuncy o), (formatfuncx o); now split.
Qed.

Lemma flip_twice a axis :
  x_inverted (flipped [axis; axis] a) = x_inverted a /\
  y_inverted (flipped [axis; axis] a) = y_inverted a.
Proof.
  unfold flipped, flip. simpl.
  destruct (String.eqb axis "x"); [|destruct (String.eqb axis "y")]; simpl;
    rewrite ?negb_involutive; now split.
Qed.

(** The directions of the new axes after a valid call. *)
Lemma plot_any_directions h vals o s :
  valid_call h vals o ->
  exists s' a,
    plot_any h vals o s = (Ok tt, s') /\
    get_axes (created s) (axes_of s') = Some a /\
    let before := with_legend o (decorate h o (add_artists (drawn_series vals o) fresh_axes)) in
    x_inverted a = x_inverted (flipped (invert o) before) /\
    y_inverted a = y_inverted (flipped (invert o) before).
Proof.
  intros Hvalid. destruct (plot_any_view h vals o s Hvalid) as (s' & Hrun & Ha & _).
  eexists. eexists. split; [exact Hrun|]. split; [exact Ha|].
  unfold final_axes. apply directions_with_formatters.
Qed.

(** C7: with [invert=['x','y']] both axes point the other way than with
    [invert=[]], and naming an axis twice gives the directions of
    [invert=[]] again. *)
Theorem plot_any_invert h vals o s :
  valid_call h vals o ->
  exists s0 a0 sxy axy,
    plot_any h vals (with_invert [] o) s = (Ok tt, s0) /\
    get_axes (created s) (axes_of s0) = Some a0 /\
    plot_any h vals (with_invert ["x"; "y"] o) s = (Ok tt, sxy) /\
    get_axes (created s) (axes_of sxy) = Some axy /\
    x_inverted axy = negb (x_inverted a0) /\
    y_inverted axy = negb (y_inverted a0) /\
    forall axis,
    exists s2 a2,
      plot_any h vals (with_invert [axis; axis] o) s = (Ok tt, s2) /\
      get_axes (created s) (axes_of s2) = Some a2 /\
      x_inverted a2 = x_inverted a0 /\
      y_inverted a2 = y_inverted a0.
Proof.
  intros Hvalid.
  destruct (plot_any_directions h vals (with_invert [] o) s (valid_with_invert _ _ _ _ Hvalid))
    as (s0 & a0 & R0 & A0 & X0 & Y0).
  destruct (plot_any_directions h vals (with_invert ["x"; "y"] o) s
              (valid_with_invert _ _ _ _ Hvalid))
    as (sxy & axy & Rxy & Axy & Xxy & Yxy).
  exists s0, a0, sxy, axy. repeat split; auto.
  - rewrite Xxy, X0. reflexivity.
  - rewrite Yxy, Y0. reflexivity.
  - intros axis.
    destruct (plot_any_directions h vals (with_invert [axis; axis] o) s
                (valid_with_invert _ _ _ _ Hvalid))
      as (s2 & a2 & R2 & A2 & X2 & Y2).
    exists s2, a2. repeat split; auto.
    + rewrite X2, X0. apply flip_twice.
    + rewrite Y2, Y0. apply flip_twice.
Qed.

Lemma plot_any_invert_witness :
  valid_call host0 [one_series] defaults /\
  exists s0 a0 sxy axy,
    plot_any host0 [one_series] (with_invert [] defaults) mpl0 = (Ok tt, s0) /\
    get_axes (created mpl0) (axes_of s0) = Some a0 /\
    plot_any host0 [one_series] (with_invert ["x"; "y"] defaults) mpl0 = (Ok tt, sxy) /\
    get_axes (created mpl0) (axes_of sxy) = Some axy /\
    x_inverted axy = negb (x_inverted a0) /\
    y_inverted axy = negb (y_inverted a0) /\
    forall axis,
    exists s2 a2,
      plot_any host0 [one_series] (with_invert [axis; axis] defaults) mpl0 = (Ok tt, s2) /\
      get_axes (created mpl0) (axes_of s2) = Some a2 /\
      x_inverted a2 = x_inverted a0 /\
      y_inverted a2 = y_inverted a0.
Proof.
  assert (Hvalid : valid_call host0 [one_series] defaults).
  { split; [reflexivity|repeat constructor|discriminate|reflexivity|reflexivity]. }
  split; [exact Hvalid|].
  exact (plot_any_invert host0 [one_series] defaults mpl0 Hvalid).
Defined.

(** *** Saving and closing *)

Lemma others_absent fig op : ~ In fig (others fig op).
Proof.
  unfold others. intros H. apply filter_In in H. destruct H as [_ H].
  now rewrite Nat.eqb_refl in H.
Qed.

Lemma others_fresh fig op : Forall (fun n => n < fig) op -> others fig op = op.
Proof.
  unfold others. induction 1 as [|n op Hn _ IH]; simpl; [reflexivity|].
  destruct (Nat.eqb_spec n fig); [lia|]. simpl. now rewrite IH.
Qed.

Lemma assoc_head {A} k (v : A) l : assoc k ((k, v) :: l) = Some v.
Proof. simpl. now rewrite String.eqb_refl. Qed.

(** C8: a valid call with [save=True] and [show=False] writes the
    figure, all series drawn, to [savename] with the tight bounding box
    and closes it: the figure of the call is not open afterwards and the
    open figures are those open before the call, none if there was none.
    The default of [savename] is [plot.png]. *)
Theorem plot_any_saves_and_closes h vals o s :
  valid_call h vals o ->
  save o = true ->
  show o = false ->
  Forall (fun n => n < created s) (open_figs s) ->
  exists s' img,
    plot_any h vals o s = (Ok tt, s') /\
    assoc (savename o) (files s') = Some img /\
    img_fig img = created s /\
    img_tight img = true /\
    List.length (artists (img_content img)) = List.length vals /\
    ~ In (created s) (open_figs s') /\
    open_figs s' = open_figs s /\
    (open_figs s = [] -> open_figs s' = []) /\
    savename defaults = "plot.png".
Proof.
  intros Hvalid Hsave Hshow Hwf.
  destruct (plot_any_view h vals o s Hvalid) as (s' & Hrun & Ha & Ho & Hf).
  rewrite Hshow in Ho. rewrite Hsave in Hf.
  exists s', {| img_fig := created s; img_tight := true;
                img_content := final_axes h o (add_artists (drawn_series vals o) fresh_axes) |}.
  split; [exact Hrun|]. rewrite Hf, Ho. split; [apply assoc_head|]. simpl.
  rewrite (others_fresh _ _ Hwf).
  repeat split; auto.
  - rewrite artists_final_axes, artists_add_artists. apply expected_length.
  - intros Hin. rewrite <- (others_fresh _ _ Hwf) in Hin. now apply others_absent in Hin.
Qed.

Lemma plot_any_saves_and_closes_witness :
  valid_call host0 [one_series] (saving_only defaults) /\
  save (saving_only defaults) = true /\
  show (saving_only defaults) = false /\
  Forall (fun n => n < created mpl0) (open_figs mpl0) /\
  exists s' img,
    plot_any host0 [one_series] (saving_only defaults) mpl0 = (Ok tt, s') /\
    assoc (savename (saving_only defaults)) (files s') = Some img /\
    img_fig img = created mpl0 /\
    img_tight img = true /\
    List.length (artists (img_content img)) = List.length [one_series] /\
    ~ In (created mpl0) (open_figs s') /\
    open_figs s' = open_figs mpl0 /\
    (open_figs mpl0 = [] -> open_figs s' = []) /\
    savename defaults = "plot.png".
Proof.
  assert (Hvalid : valid_call host0 [one_series] (saving_only defaults)).
  { split; [reflexivity|repeat constructor|discriminate|reflexivity|reflexivity]. }
  split; [exact Hvalid|]. split; [reflexivity|]. split; [reflexivity|].
  split; [constructor|].
  apply (plot_any_saves_and_closes host0 [one_series] (saving_only defaults) mpl0 Hvalid).
  - reflexivity.
  - reflexivity.
  - constructor.
Defined.

(** *** No series *)

Lemma styles_fold_style {A} (f : A -> style_call) c l a :
  In c (styles a) -> In c (styles (fold_left (fun b x => add_style (f x) b) l a)).
Proof.
  revert a. induction l as [|x l IH]; intros a H; simpl; [exact H|].
  apply IH. simpl. apply in_or_app. now left.
Qed.

Lemma styles_flipped c l a : In c (styles a) -> In c (styles (flipped l a)).
Proof.
  revert a. induction l as [|x l IH]; intros a H; simpl; [exact H|].
  apply IH. unfold flip.
  destruct (String.eqb x "x"); [exact H|]. destruct (String.eqb x "y"); exact H.
Qed.

Lemma text_in_final_axes h o a :
  In (SetText (x_label o) (y_label o) (title o)) (styles (final_axes h o a)).
Proof.
  unfold final_axes.
  assert (H1 : In (SetText (x_label o) (y_label o) (title o)) (styles (decorate h o a))).
  { unfold decorate. simpl. apply in_or_app. left. apply in_or_app. left.
    apply in_or_app. right. now left. }
  assert (H2 : In (SetText (x_label o) (y_label o) (title o))
                  (styles (with_legend o (decorate h o a)))).
  { unfold with_legend. destruct (truthy (labels o)); [|exact H1].
    apply styles_fold_style. simpl. apply in_or_app. now left. }
  apply (styles_flipped _ (invert o)) in H2.
  unfold with_formatters.
  destruct (formatfuncy o), (formatfuncx o); simpl; auto using in_or_app.
Qed.

(** C10: without series nothing is drawn and the call completes,
    whatever the plot kind, the labels and the extra options, when the
    host raises nothing of its own; the empty axes carry the texts of
    the call. *)
Theorem plot_any_no_series h o s :
  host_accepts h o = true ->
  exists s' a,
    plot_any h [] o s = (Ok tt, s') /\
    get_axes (created s) (axes_of s') = Some a /\
    artists a = [] /\
    In (SetText (x_label o) (y_label o) (title o)) (styles a).
Proof.
  intros Hhost. rewrite plot_any_unfold. cbn [draw_all]. unfold ret.
  destruct (finish_view h (created s) o (started o s) fresh_axes (open_figs s) (files s)
              Hhost (started_view o s)) as (s' & Hrun & Ha & _).
  exists s', (final_axes h o fresh_axes). split; [exact Hrun|]. split; [exact Ha|].
  split; [now rewrite artists_final_axes|apply text_in_final_axes].
Qed.

Lemma plot_any_no_series_witness :
  host_accepts host0 (with_plotcase "bars" defaults) = true /\
  exists s' a,
    plot_any host0 [] (with_plotcase "bars" defaults) mpl0 = (Ok tt, s') /\
    get_axes (created mpl0) (axes_of s') = Some a /\
    artists a = [] /\
    In (SetText (x_label (with_plotcase "bars" defaults))
                (y_label (with_plotcase "bars" defaults))
                (title (with_plotcase "bars" defaults))) (styles a).
Proof.
  split; [reflexivity|].
  apply (plot_any_no_series host0 (with_plotcase "bars" defaults) mpl0). reflexivity.
Defined.

(** ** The claims about [ps_time] *)

Local Open Scope Z_scope.

(** The bytes of the first unit suffix. *)
Lemma suffix_us_bytes :
  suffix_us =
  String " " (String "195" (String "130" (String "194" (String "181" (String "s" EmptyString))))).
Proof. reflexivity. Qed.

(** The literals are the doubles nearest to the decimal fractions. *)
Lemma literals_nearest :
  SFdiv PyFloat.prec PyFloat.emax (PyFloat.nearest 1) PyFloat.lit_1e6 = PyFloat.lit_1e_6 /\
  SFdiv PyFloat.prec PyFloat.emax (PyFloat.nearest 1) PyFloat.lit_1e3 = PyFloat.lit_1e_3.
Proof. split; vm_compute; reflexivity. Qed.

(** An integer is compared with the thresholds exactly. *)
Lemma int_ge_1e6 z : int_ge_float z PyFloat.lit_1e6 = (1000000 <=? z).
Proof.
  change (int_ge_float z PyFloat.lit_1e6) with (8589934592000000 <=? z * 2 ^ 33).
  destruct (Z.leb_spec 1000000 z); [apply Z.leb_le|apply Z.leb_gt]; lia.
Qed.

Lemma int_ge_1e3 z : int_ge_float z PyFloat.lit_1e3 = (1000 <=? z).
Proof.
  change (int_ge_float z PyFloat.lit_1e3) with (8796093022208000 <=? z * 2 ^ 43).
  destruct (Z.leb_spec 1000 z); [apply Z.leb_le|apply Z.leb_gt]; lia.
Qed.

(** The digits are those of the nearest integer: it is at most half a
    unit away from the binary value, and even when exactly half. *)
Lemma round_half_even_nearest m e :
  e < 0 ->
  let d := 2 ^ (- e) in
  let n := round_half_even m e in
  2 * Z.abs (n * d - Z.pos m) <= d /\
  (2 * Z.abs (n * d - Z.pos m) = d -> Z.even n = true).
Proof.
  intros He d n. subst n. unfold round_half_even.
  destruct (Z.leb_spec 0 e) as [H0|_]; [lia|]. fold d.
  assert (Hd : 0 < d) by (subst d; apply Z.pow_pos_nonneg; lia).
  pose proof (Z.div_mod (Z.pos m) d ltac:(lia)) as Hdm.
  pose proof (Z.mod_pos_bound (Z.pos m) d Hd) as Hr.
  set (q := Z.pos m / d) in *. set (r := Z.pos m mod d) in *.
  destruct (Z.compare_spec (2 * r) d) as [Heq|Hlt|Hgt].
  - destruct (Z.even q) eqn:Eq; (split; [nia|]); intros _; [exact Eq|].
    rewrite Z.even_add, Eq. reflexivity.
  - split; [nia|]. intros H. nia.
  - split; [nia|]. intros H. nia.
Qed.

(** The rules of [ps_time], in the order of the source. *)
Lemma ps_time_rules {P : Type} (x : pynum) (pos : P) :
  (eq_zero x = true -> ps_time x pos = format_num x) /\
  (eq_zero x = false -> ge_float x PyFloat.lit_1e6 = true ->
   ps_time x pos =
   (v <- mul_float x PyFloat.lit_1e_6 ;; Ok (format_1_0f v ++ suffix_us))) /\
  (eq_zero x = false -> ge_float x PyFloat.lit_1e6 = false ->
   ge_float x PyFloat.lit_1e3 = true ->
   ps_time x pos =
   (v <- mul_float x PyFloat.lit_1e_3 ;; Ok (format_1_0f v ++ " ns"))) /\
  (eq_zero x = false -> ge_float x PyFloat.lit_1e6 = false ->
   ge_float x PyFloat.lit_1e3 = false ->
   ps_time x pos = (t <- format_num x ;; Ok (t ++ " ps"))).
Proof.
  unfold ps_time. repeat split; intros; repeat match goal with H : _ = _ |- _ => rewrite H end;
    reflexivity.
Qed.

(** The zero rule gives the text [0] for the integer and for the
    positive zero; the negative zero is printed with its sign. *)
Lemma ps_time_zero {P : Type} (pos : P) :
  ps_time (PyInt 0) pos = Ok "0" /\
  ps_time (PyFloat (S754_zero false)) pos = Ok "0" /\
  ps_time (PyFloat (S754_zero true)) pos = Ok "-0".
Proof. vm_compute. repeat split. Qed.

Lemma upto_In n z : 0 < z <= Z.of_nat n -> In z (upto n).
Proof.
  induction n as [|k IH]; intros Hz; [lia|].
  cbn [upto]. apply in_or_app.
  destruct (Z.eq_dec z (Z.of_nat (S k))) as [->|Hne]; [right; now left|].
  left. apply IH. lia.
Qed.

(** Below 1000 the integer itself is printed, with the unit [ps]. *)
Lemma ps_time_picoseconds {P : Type} (pos : P) z :
  0 < z < 1000 ->
  ps_time (PyInt z) pos = Ok (digits z ++ " ps").
Proof.
  intros Hz.
  assert (Hall : forallb (fun z => result_eqb (ps_time (PyInt z) tt) (digits z ++ " ps"))
                         (upto 999) = true) by (vm_compute; reflexivity).
  rewrite forallb_forall in Hall. specialize (Hall z (upto_In 999 z ltac:(lia))).
  change (ps_time (PyInt z) pos) with (ps_time (PyInt z) tt).
  destruct (ps_time (PyInt z) tt) as [u|e]; simpl in Hall; [|discriminate].
  apply String.eqb_eq in Hall. now subst.
Qed.

Lemma append_inj_l (p u v : string) : p ++ u = p ++ v -> u = v.
Proof.
  induction p as [|c p IH]; simpl; intros H; [exact H|].
  injection H as H. now apply IH.
Qed.

(** Every value of the second rule gets the six bytes of [suffix_us],
    never the text of a blank, a micro sign and an s. *)
Lemma ps_time_microseconds {P : Type} (x : pynum) (pos : P) v :
  eq_zero x = false ->
  ge_float x PyFloat.lit_1e6 = true ->
  mul_float x PyFloat.lit_1e_6 = Ok v ->
  ps_time x pos = Ok (format_1_0f v ++ " Âµs") /\
  ps_time x pos <> Ok (format_1_0f v ++ " µs").
Proof.
  intros Hz Hge Hmul.
  destruct (ps_time_rules x pos) as (_ & H2 & _).
  rewrite (H2 Hz Hge), Hmul. simpl. split; [reflexivity|].
  intros H. injection H as H. apply append_inj_l in H. discriminate H.
Qed.

(** C1 at [ps_time(2500000.0, pos)], a tick value as the host passes
    it: the second rule applies, the value is scaled to 2.5 and printed
    as 2, and the unit is the suffix of the source, which is not the
    text of the claim. *)
Theorem ps_time_microsecond_rule :
  forall (P : Type) (pos : P),
    let x := PyFloat (PyFloat.nearest 2500000) in
    eq_zero x = false /\
    ge_float x PyFloat.lit_1e6 = true /\
    mul_float x PyFloat.lit_1e_6 = Ok (S754_finite false 5629499534213120 (-51)) /\
    ps_time x pos = Ok "2 Âµs" /\
    ps_time x pos <> Ok "2 µs".
Proof.
  intros P pos x. subst x. vm_compute. repeat split. intros H. discriminate H.
Qed.

(** C2: the first three examples hold, with ties rounded to even; the
    fourth returns the digit of the claim and another suffix. *)
Theorem ps_time_examples :
  forall (P : Type) (pos : P),
    ps_time (PyInt 0) pos = Ok "0" /\
    ps_time (PyInt 500) pos = Ok "500 ps" /\
    ps_time (PyInt 1500) pos = Ok "2 ns" /\
    ps_time (PyInt 2500000) pos = Ok "2 Âµs" /\
    ps_time (PyInt 2500000) pos <> Ok "2 µs".
Proof.
  intros P pos. vm_compute. repeat split. intros H. discriminate H.
Qed.

(** The digits of [format_1_0f] on doubles that are no integers or
    have more than 17 digits, and the sign of a value that rounds to
    zero. *)
Lemma format_1_0f_examples :
  format_1_0f (PyFloat.nearest (10 ^ 23)) = "99999999999999991611392" /\
  format_1_0f (PyFloat.nearest 123456789012345678) = "123456789012345680" /\
  format_1_0f (binary_normalize PyFloat.prec PyFloat.emax 1 (-1) false) = "0" /\
  format_1_0f (binary_normalize PyFloat.prec PyFloat.emax (-3) (-1) false) = "-2" /\
  format_1_0f (binary_normalize PyFloat.prec PyFloat.emax (-1) (-2) false) = "-0" /\
  format_1_0f (S754_finite false 1 (-1074)) = "0".
Proof. vm_compute. repeat split. Qed.

(** An integer is converted when the nearest double is finite. *)
Lemma of_int_range :
  PyFloat.of_int (2 ^ 1024 - 2 ^ 970 - 1) = Ok (S754_finite false 9007199254740991 971) /\
  PyFloat.of_int (2 ^ 1024 - 2 ^ 970) = Raise OverflowError.
Proof. vm_compute. split; reflexivity. Qed.

(** First match wins: 999999.5 is below the first threshold and is
    printed in nanoseconds, as 1000. *)
Lemma ps_time_below_microsecond {P : Type} (pos : P) :
  ps_time (PyFloat (binary_normalize PyFloat.prec PyFloat.emax 1999999 (-1) false)) pos
  = Ok "1000 ns".
Proof. vm_compute. reflexivity. Qed.

(** Values that are no numbers of picoseconds: a negative value, a NaN,
    an infinity, an integer beyond the doubles. *)
Lemma ps_time_unusual_values {P : Type} (pos : P) :
  ps_time (PyInt (-3500)) pos = Ok "-3500 ps" /\
  ps_time (PyFloat S754_nan) pos = Ok "nan ps" /\
  ps_time (PyFloat (S754_infinity false)) pos = Ok (append "inf" suffix_us) /\
  ps_time (PyInt (2 ^ 1024)) pos = Raise OverflowError /\
  ps_time (PyInt (- 2 ^ 1024)) pos = Raise OverflowError.
Proof. vm_compute. repeat split. Qed.

(** Ties go to the even neighbour: 2.5 ns is printed as 2, 3.5 ns as 4. *)
Lemma ps_time_ties {P : Type} (pos : P) :
  ps_time (PyInt 2500) pos = Ok "2 ns" /\ ps_time (PyInt 3500) pos = Ok "4 ns".
Proof. vm_compute. split; reflexivity. Qed.

(** C9: the tick position plays no part in the result. *)
Theorem ps_time_ignores_pos :
  forall (P Q : Type) (x : pynum) (p1 : P) (p2 : Q), ps_time x p1 = ps_time x p2.
Proof. reflexivity. Qed.

(** * Further properties of [ps_time] *)

(** A number below zero is never scaled, whatever its size: it is
    printed as it is, with the unit [ps]. *)
Theorem ps_time_negative_unscaled :
  forall (P : Type) (x : pynum) (pos : P),
    is_negative x = true ->
    ps_time x pos = (t <- format_num x ;; Ok (t ++ " ps")).
Proof.
  intros P x pos Hneg. destruct (ps_time_rules x pos) as (_ & _ & _ & H4).
  destruct x as [z|f]; simpl in Hneg.
  - apply Z.ltb_lt in Hneg. apply H4.
    + simpl. apply Z.eqb_neq. lia.
    + unfold ge_float. rewrite int_ge_1e6. apply Z.leb_gt. lia.
    + unfold ge_float. rewrite int_ge_1e3. apply Z.leb_gt. lia.
  - destruct f as [sg|sg| |sg m e]; try discriminate; destruct sg; try discriminate;
      apply H4; reflexivity.
Qed.

Lemma ps_time_negative_unscaled_witness :
  is_negative (PyInt (-5000000)) = true /\
  ps_time (PyInt (-5000000)) tt = (t <- format_num (PyInt (-5000000)) ;; Ok (t ++ " ps")).
Proof.
  split; [reflexivity|].
  apply (ps_time_negative_unscaled unit (PyInt (-5000000)) tt). reflexivity.
Defined.

Lemma ps_time_picoseconds_witness :
  0 < 7 < 1000 /\ ps_time (PyInt 7) tt = Ok (digits 7 ++ " ps").
Proof.
  split; [lia|]. apply (ps_time_picoseconds tt 7). lia.
Defined.

(** A whole number of nanoseconds below 1000 is printed exactly: the
    product with the double [1e-3] rounds to the integer itself. *)
Theorem ps_time_whole_nanoseconds :
  forall (P : Type) (pos : P) (k : Z),
    0 < k < 1000 ->
    ps_time (PyInt (1000 * k)) pos = Ok (digits k ++ " ns").
Proof.
  intros P pos k Hk.
  assert (Hall : forallb (fun k => result_eqb (ps_time (PyInt (1000 * k)) tt)
                                              (digits k ++ " ns"))
                         (upto 999) = true) by (vm_compute; reflexivity).
  rewrite forallb_forall in Hall. specialize (Hall k (upto_In 999 k ltac:(lia))).
  change (ps_time (PyInt (1000 * k)) pos) with (ps_time (PyInt (1000 * k)) tt).
  destruct (ps_time (PyInt (1000 * k)) tt) as [u|e]; simpl in Hall; [|discriminate].
  apply String.eqb_eq in Hall. now subst.
Qed.

Lemma ps_time_whole_nanoseconds_witness :
  0 < 42 < 1000 /\ ps_time (PyInt (1000 * 42)) tt = Ok (digits 42 ++ " ns").
Proof.
  split; [lia|]. apply (ps_time_whole_nanoseconds unit tt 42). lia.
Defined.

(** The same for a whole number of microseconds below 1000, with the
    unit suffix of the source. *)
Theorem ps_time_whole_microseconds :
  forall (P : Type) (pos : P) (k : Z),
    0 < k < 1000 ->
    ps_time (PyInt (1000000 * k)) pos = Ok (digits k ++ suffix_us).
Proof.
  intros P pos k Hk.
  assert (Hall : forallb (fun k => result_eqb (ps_time (PyInt (1000000 * k)) tt)
                                              (digits k ++ suffix_us))
                         (upto 999) = true) by (vm_compute; reflexivity).
  rewrite forallb_forall in Hall. specialize (Hall k (upto_In 999 k ltac:(lia))).
  change (ps_time (PyInt (1000000 * k)) pos) with (ps_time (PyInt (1000000 * k)) tt).
  destruct (ps_time (PyInt (1000000 * k)) tt) as [u|e]; simpl in Hall; [|discriminate].
  apply String.eqb_eq in Hall. now subst.
Qed.

Lemma ps_time_whole_microseconds_witness :
  0 < 3 < 1000 /\ ps_time (PyInt (1000000 * 3)) tt = Ok (digits 3 ++ suffix_us).
Proof.
  split; [lia|]. apply (ps_time_whole_microseconds unit tt 3). lia.
Defined.

(** [ps_time] raises nothing for a float; for an integer it raises
    exactly when the integer is too large for a double, and then an
    [OverflowError]. *)
Theorem ps_time_raises_only_overflow :
  forall (P : Type) (x : pynum) (pos : P) (e : exn),
    ps_time x pos = Raise e <->
    e = OverflowError /\ exists z, x = PyInt z /\ PyFloat.of_int z = Raise OverflowError.
Proof.
  intros P x pos e. split.
  - unfold ps_time. destruct x as [z|f].
    + assert (Hof : forall e', PyFloat.of_int z = Raise e' -> e' = OverflowError).
      { unfold PyFloat.of_int. destruct (PyFloat.nearest z); congruence. }
      unfold format_num, mul_float, bind.
      destruct (PyFloat.of_int z) as [f|e'] eqn:E.
      * destruct (eq_zero (PyInt z)); [discriminate|].
        destruct (ge_float (PyInt z) PyFloat.lit_1e6); [discriminate|].
        destruct (ge_float (PyInt z) PyFloat.lit_1e3); discriminate.
      * pose proof (Hof e' eq_refl) as ->.
        intros H. assert (e = OverflowError).
        { destruct (eq_zero (PyInt z)); [congruence|].
          destruct (ge_float (PyInt z) PyFloat.lit_1e6); [congruence|].
          destruct (ge_float (PyInt z) PyFloat.lit_1e3); congruence. }
        subst. split; [reflexivity|]. now exists z.
    + unfold format_num, mul_float, bind.
      destruct (eq_zero (PyFloat f)); [discriminate|].
      destruct (ge_float (PyFloat f) PyFloat.lit_1e6); [discriminate|].
      destruct (ge_float (PyFloat f) PyFloat.lit_1e3); discriminate.
  - intros (-> & z & -> & Hof). unfold ps_time.
    assert (Hz : eq_zero (PyInt z) = false).
    { simpl. apply Z.eqb_neq. intros ->. vm_compute in Hof. discriminate. }
    rewrite Hz. unfold format_num, mul_float, bind. rewrite Hof.
    destruct (ge_float (PyInt z) PyFloat.lit_1e6); [reflexivity|].
    destruct (ge_float (PyInt z) PyFloat.lit_1e3); reflexivity.
Qed.

Lemma ps_time_raises_only_overflow_witness :
  PyFloat.of_int (2 ^ 1024) = Raise OverflowError /\
  ps_time (PyInt (2 ^ 1024)) tt = Raise OverflowError.
Proof.
  assert (H : PyFloat.of_int (2 ^ 1024) = Raise OverflowError) by (vm_compute; reflexivity).
  split; [exact H|].
  apply (proj2 (ps_time_raises_only_overflow unit (PyInt (2 ^ 1024)) tt OverflowError)).
  split; [reflexivity|]. exists (2 ^ 1024). split; [reflexivity|exact H].
Defined.

Lemma round_half_even_nearest_witness :
  -1 < 0 /\
  2 * Z.abs (round_half_even 5 (-1) * 2 ^ (- -1) - Z.pos 5) <= 2 ^ (- -1) /\
  (2 * Z.abs (round_half_even 5 (-1) * 2 ^ (- -1) - Z.pos 5) = 2 ^ (- -1) ->
   Z.even (round_half_even 5 (-1)) = true).
Proof.
  split; [lia|]. apply (round_half_even_nearest 5 (-1)). lia.
Defined.

(** * Further properties of [plot_any] *)

Local Open Scope nat_scope.

(** ** What every run keeps *)

Lemma get_put_axes_other ax f l n :
  n <> ax -> get_axes n (put_axes ax f l) = get_axes n l.
Proof.
  intros Hn. induction l as [|[m b] l IH]; simpl; [reflexivity|].
  destruct (Nat.eqb_spec ax m) as [->|Hm]; simpl.
  - destruct (Nat.eqb_spec n m); [contradiction|reflexivity].
  - now rewrite IH.
Qed.

Lemma during_started o s0 : during o s0 (started o s0).
Proof.
  repeat split. intros n Hn. simpl.
  destruct (Nat.eqb_spec n (created s0)); [contradiction|reflexivity].
Qed.

Lemma during_on_axes o s0 g s :
  during o s0 s -> during o s0 (snd (on_axes (created s0) g s)).
Proof.
  intros (H1 & H2 & H3 & H4 & H5 & H6). repeat split; simpl; auto.
  intros n Hn. rewrite get_put_axes_other by exact Hn. now apply H6.
Qed.

Lemma during_ax_draw h o s0 d s :
  during o s0 s -> during o s0 (snd (ax_draw h (created s0) d s)).
Proof.
  intros H. unfold ax_draw. destruct (draw_ok h d); [now apply during_on_axes|exact H].
Qed.

Lemma exe_func_cases h pc f :
  getitem (exe_func h) pc = Ok f -> f = lines h \/ f = points h \/ f = vlines h.
Proof.
  unfold getitem, exe_func. simpl.
  destruct (String.eqb pc "lines"); [intros [= <-]; auto|].
  destruct (String.eqb pc "points"); [intros [= <-]; auto|].
  destruct (String.eqb pc "vlines"); [intros [= <-]; auto|discriminate].
Qed.

Lemma during_renderer h pc f o s0 x y kw s :
  getitem (exe_func h) pc = Ok f ->
  during o s0 s -> during o s0 (snd (f (created s0) x y kw s)).
Proof.
  intros Hf H. destruct (exe_func_cases h pc f Hf) as [->|[->| ->]];
    [unfold lines|unfold points|unfold vlines];
    match goal with |- context [if ?b then _ else _] => destruct b end;
    solve [now apply during_ax_draw | exact H].
Qed.

Lemma during_draw_all h pc labels kwargs o s0 vals :
  forall index s,
    during o s0 s ->
    during o s0 (snd (draw_all h (created s0) pc labels kwargs index vals s)).
Proof.
  induction vals as [|values rest IH]; intros index s H; [exact H|].
  cbn [draw_all]. unfold mbind at 1. unfold lift at 1.
  destruct (getitem (exe_func h) pc) as [f|e] eqn:Ef; [|exact H].
  unfold mbind at 1. unfold lift at 1.
  destruct (subscript values 0) as [x|e]; [|exact H].
  unfold mbind at 1. unfold lift at 1.
  destruct (subscript values 1) as [y|e]; [|exact H].
  unfold mbind at 1. unfold lift at 1.
  destruct (subscript colorcycle (index mod List.length colorcycle)) as [c|e]; [|exact H].
  assert (Hcall : forall kw,
             during o s0
               (snd (mbind (f (created s0) x y kw)
                           (fun _ => draw_all h (created s0) pc labels kwargs (S index) rest) s))).
  { intros kw. pose proof (during_renderer h pc f o s0 x y kw s Ef H) as Hr.
    unfold mbind. destruct (f (created s0) x y kw s) as [[u|e] s1]; simpl in Hr.
    - now apply IH.
    - exact Hr. }
  destruct labels as [ls|].
  - unfold mbind at 1. unfold mbind at 1. unfold lift at 1.
    destruct (subscript ls index) as [l|e]; [|exact H].
    unfold ret at 1. apply Hcall.
  - unfold mbind at 1. unfold ret at 1. apply Hcall.
Qed.

Lemma outcome_raise o s0 e s : during o s0 s -> outcome o s0 (Raise e, s).
Proof. intros (H1 & H2 & H3 & H4 & H5 & H6). repeat split; assumption. Qed.

Lemma outcome_step {A} o s0 (m : M A) (k : A -> M unit) s :
  during o s0 s ->
  (forall s1, during o s0 s1 -> during o s0 (snd (m s1))) ->
  (forall a s2, during o s0 s2 -> outcome o s0 (k a s2)) ->
  outcome o s0 (mbind m k s).
Proof.
  intros H Hm Hk. specialize (Hm s H). unfold mbind.
  destruct (m s) as [[a|e] s1]; simpl in Hm; [now apply Hk|now apply outcome_raise].
Qed.

Lemma during_gca o s0 s : during o s0 s -> gca s = (Ok (created s0), s).
Proof. intros (_ & _ & _ & H4 & _). unfold gca. now rewrite H4. Qed.

Lemma during_set_linewidths o s0 w hs :
  forall s, during o s0 s -> during o s0 (snd (set_linewidths (created s0) w hs s)).
Proof.
  induction hs as [|hd hs IH]; intros s H; [exact H|].
  cbn [set_linewidths]. unfold mbind, ax_style.
  pose proof (during_on_axes o s0 (add_style (HandleLinewidth hd w)) s H) as H1.
  destruct (on_axes (created s0) (add_style (HandleLinewidth hd w)) s) as [[u|e] s1];
    simpl in H1; [now apply IH|exact H1].
Qed.

Lemma during_legend o s0 fs loc anchor pad frameon w s :
  during o s0 s ->
  during o s0 (snd (mbind (ax_legend (created s0) fs loc anchor pad frameon)
                          (fun leg => set_linewidths (created s0) w leg) s)).
Proof.
  intros H. unfold mbind, ax_legend, ax_style.
  match goal with
  | |- context [on_axes (created s0) ?g s] =>
      pose proof (during_on_axes o s0 g s H) as H1;
      destruct (on_axes (created s0) g s) as [r s1]
  end.
  simpl in H1. now apply during_set_linewidths.
Qed.

Lemma during_invert_axes o s0 invert :
  forall s, during o s0 s -> during o s0 (snd (invert_axes invert s)).
Proof.
  induction invert as [|axis rest IH]; intros s H; [exact H|].
  cbn [invert_axes].
  assert (Hstep : during o s0
            (snd ((if String.eqb axis "x" then mbind gca (fun a => invert_xaxis a)
                   else if String.eqb axis "y" then mbind gca (fun a => invert_yaxis a)
                   else ret tt) s))).
  { destruct (String.eqb axis "x"); [|destruct (String.eqb axis "y")].
    - unfold mbind. rewrite (during_gca o s0 s H). now apply during_on_axes.
    - unfold mbind. rewrite (during_gca o s0 s H). now apply during_on_axes.
    - exact H. }
  unfold mbind at 1.
  match goal with
  | |- context [match ?m s with _ => _ end] => destruct (m s) as [[u|e] s1]
  end; simpl in Hstep; [now apply IH|exact Hstep].
Qed.

(** The state after a call, whatever its result. *)
Lemma plot_any_outcome h vals o s : outcome o s (plot_any h vals o s).
Proof.
  rewrite plot_any_unfold.
  pose proof (during_draw_all h (plotcase o) (effective_labels o) (kwargs o) o s vals 0
                (started o s) (during_started o s)) as Hloop.
  destruct (draw_all h (created s) (plotcase o) (effective_labels o) (kwargs o) 0 vals
                     (started o s)) as [[u|e] s1]; simpl in Hloop;
    [|now apply outcome_raise].
  unfold finish.
  apply outcome_step; [exact Hloop| |intros _ s2 H2].
  { intros s' H'. destruct (xlims o) as [[lo hi]|]; [|exact H'].
    unfold ax_set_xlim. destruct (lim_ok h lo hi); [now apply during_on_axes|exact H']. }
  apply outcome_step; [exact H2| |clear s2 H2; intros _ s2 H2].
  { intros s' H'. destruct (ylims o) as [[lo hi]|]; [|exact H'].
    unfold ax_set_ylim. destruct (lim_ok h lo hi); [now apply during_on_axes|exact H']. }
  apply outcome_step; [exact H2| |clear s2 H2; intros _ s2 H2].
  { intros s' H'. now apply during_on_axes. }
  apply outcome_step; [exact H2| |clear s2 H2; intros _ s2 H2].
  { intros s' H'. now apply during_on_axes. }
  apply outcome_step; [exact H2| |clear s2 H2; intros _ s2 H2].
  { intros s' H'. now apply during_on_axes. }
  apply outcome_step; [exact H2| |clear s2 H2; intros _ s2 H2].
  { intros s' H'. destruct (truthy (labels o)); [now apply during_legend|exact H']. }
  apply outcome_step; [exact H2| |clear s2 H2; intros _ s2 H2].
  { intros s' H'. now apply during_invert_axes. }
  apply outcome_step; [exact H2| |clear s2 H2; intros _ s2 H2].
  { intros s' H'. destruct (formatfuncx o); [now apply during_on_axes|exact H']. }
  apply outcome_step; [exact H2| |clear s2 H2; intros _ s2 H2].
  { intros s' H'. destruct (formatfuncy o); [now apply during_on_axes|exact H']. }
  pose proof (during_gca o s s2 H2) as Hg.
  destruct H2 as (H1 & H2 & H3 & H4 & H5 & H6).
  unfold outcome, mbind, savefig, mbind, close, modify, ret.
  destruct (save o); [rewrite Hg; destruct (path_ok h (savename o))|];
    destruct (show o); simpl; repeat split; auto;
    try (rewrite H4; simpl; now rewrite Nat.eqb_refl);
    try (eexists; split; [|split]; [| |rewrite H5; reflexivity]; reflexivity).
Qed.


(** A call never touches the axes of a figure made before it, whatever
    its result. *)
Theorem plot_any_other_figures_untouched h vals o s n :
  n <> created s ->
  get_axes n (axes_of (snd (plot_any h vals o s))) = get_axes n (axes_of s).
Proof.
  intros Hn. destruct (plot_any_outcome h vals o s) as (_ & _ & _ & H4 & _). now apply H4.
Qed.

Lemma plot_any_other_figures_untouched_witness :
  1 <> created mpl1 /\
  get_axes 1 (axes_of (snd (plot_any host0 [one_series; one_series] scatter_call mpl1)))
  = get_axes 1 (axes_of mpl1).
Proof.
  assert (H : 1 <> created mpl1) by (vm_compute; discriminate).
  split; [exact H|].
  exact (plot_any_other_figures_untouched host0 [one_series; one_series] scatter_call mpl1 1 H).
Defined.

(** A call that raises, wherever it does, leaves its figure open and
    current, also with [show=False], and has written no file. *)
Theorem plot_any_error_leaves_figure_open h vals o s e s' :
  plot_any h vals o s = (Raise e, s') ->
  open_figs s' = created s :: open_figs s /\ files s' = files s.
Proof.
  intros Hrun. destruct (plot_any_outcome h vals o s) as (_ & _ & _ & _ & H5).
  rewrite Hrun in H5. exact H5.
Qed.

Lemma plot_any_error_leaves_figure_open_witness :
  plot_any host0 [one_series] (with_plotcase "bars" (saving_only defaults)) mpl0
  = (Raise KeyError,
     snd (plot_any host0 [one_series] (with_plotcase "bars" (saving_only defaults)) mpl0)) /\
  open_figs (snd (plot_any host0 [one_series] (with_plotcase "bars" (saving_only defaults)) mpl0))
  = created mpl0 :: open_figs mpl0 /\
  files (snd (plot_any host0 [one_series] (with_plotcase "bars" (saving_only defaults)) mpl0))
  = files mpl0.
Proof.
  assert (H : plot_any host0 [one_series] (with_plotcase "bars" (saving_only defaults)) mpl0
              = (Raise KeyError,
                 snd (plot_any host0 [one_series]
                               (with_plotcase "bars" (saving_only defaults)) mpl0)))
    by (vm_compute; reflexivity).
  split; [exact H|].
  exact (plot_any_error_leaves_figure_open host0 [one_series]
           (with_plotcase "bars" (saving_only defaults)) mpl0 KeyError _ H).
Defined.

(** Without [save] a call writes no file, whatever its result. *)
Theorem plot_any_without_save_writes_nothing h vals o s :
  save o = false ->
  files (snd (plot_any h vals o s)) = files s.
Proof.
  intros Hsave. destruct (plot_any_outcome h vals o s) as (_ & _ & _ & _ & H5).
  destruct (fst (plot_any h vals o s)).
  - rewrite Hsave in H5. apply H5.
  - apply H5.
Qed.

Lemma plot_any_without_save_writes_nothing_witness :
  save defaults = false /\
  files (snd (plot_any host0 [one_series] defaults mpl0)) = files mpl0.
Proof.
  split; [reflexivity|].
  apply (plot_any_without_save_writes_nothing host0 [one_series] defaults mpl0). reflexivity.
Defined.

(** ** Calls one after the other *)

(** With [show=True] nothing is shown and nothing is closed: the figure
    stays open, and two valid calls leave two more open figures, the
    later one current. *)
Theorem plot_any_figures_accumulate h vals1 o1 vals2 o2 s :
  valid_call h vals1 o1 ->
  valid_call h vals2 o2 ->
  show o1 = true ->
  show o2 = true ->
  exists s1 s2,
    plot_any h vals1 o1 s = (Ok tt, s1) /\
    plot_any h vals2 o2 s1 = (Ok tt, s2) /\
    open_figs s2 = S (created s) :: created s :: open_figs s.
Proof.
  intros Hv1 Hv2 Hs1 Hs2.
  destruct (plot_any_view h vals1 o1 s Hv1) as (s1 & R1 & _ & O1 & _).
  destruct (plot_any_view h vals2 o2 s1 Hv2) as (s2 & R2 & _ & O2 & _).
  destruct (plot_any_outcome h vals1 o1 s) as (_ & _ & C1 & _).
  rewrite R1 in C1. simpl in C1.
  exists s1, s2. split; [exact R1|]. split; [exact R2|].
  rewrite Hs2 in O2. rewrite Hs1 in O1. now rewrite O2, O1, C1.
Qed.

Lemma plot_any_figures_accumulate_witness :
  valid_call host0 [one_series] defaults /\
  show defaults = true /\
  exists s1 s2,
    plot_any host0 [one_series] defaults mpl0 = (Ok tt, s1) /\
    plot_any host0 [one_series] defaults s1 = (Ok tt, s2) /\
    open_figs s2 = S (created mpl0) :: created mpl0 :: open_figs mpl0.
Proof.
  assert (Hvalid : valid_call host0 [one_series] defaults).
  { split; [reflexivity|repeat constructor|discriminate|reflexivity|reflexivity]. }
  split; [exact Hvalid|]. split; [reflexivity|].
  apply (plot_any_figures_accumulate host0 [one_series] defaults [one_series] defaults mpl0
           Hvalid Hvalid); reflexivity.
Defined.

Lemma assoc_other {A} k k' (v : A) l : k <> k' -> assoc k ((k', v) :: l) = assoc k l.
Proof. intros H. simpl. apply String.eqb_neq in H. now rewrite H. Qed.

(** Two valid calls that save: the file of the second holds the second
    figure, also when the first call wrote to the same name; the file of
    the first is still there when the names differ. *)
Theorem plot_any_saves_one_after_the_other h vals1 o1 vals2 o2 s :
  valid_call h vals1 o1 ->
  valid_call h vals2 o2 ->
  save o1 = true ->
  save o2 = true ->
  exists s1 s2 img1 img2,
    plot_any h vals1 o1 s = (Ok tt, s1) /\
    plot_any h vals2 o2 s1 = (Ok tt, s2) /\
    img_fig img1 = created s /\
    img_fig img2 = S (created s) /\
    assoc (savename o2) (files s2) = Some img2 /\
    (savename o1 <> savename o2 -> assoc (savename o1) (files s2) = Some img1).
Proof.
  intros Hv1 Hv2 Hs1 Hs2.
  destruct (plot_any_view h vals1 o1 s Hv1) as (s1 & R1 & _ & _ & F1).
  destruct (plot_any_view h vals2 o2 s1 Hv2) as (s2 & R2 & _ & _ & F2).
  destruct (plot_any_outcome h vals1 o1 s) as (_ & _ & C1 & _).
  rewrite R1 in C1. simpl in C1.
  rewrite Hs1 in F1. rewrite Hs2 in F2.
  exists s1, s2,
    {| img_fig := created s; img_tight := true;
       img_content := final_axes h o1 (add_artists (drawn_series vals1 o1) fresh_axes) |},
    {| img_fig := created s1; img_tight := true;
       img_content := final_axes h o2 (add_artists (drawn_series vals2 o2) fresh_axes) |}.
  split; [exact R1|]. split; [exact R2|]. rewrite F2, F1.
  split; [|split; [|split; [apply assoc_head|]]].
  - reflexivity.
  - simpl. exact C1.
  - intros Hne. rewrite assoc_other by exact Hne. apply assoc_head.
Qed.

Lemma plot_any_saves_one_after_the_other_witness :
  valid_call host0 [one_series] (saving_only defaults) /\
  valid_call host0 [one_series] (with_savename "b.png" (saving_only defaults)) /\
  savename (saving_only defaults) <> savename (with_savename "b.png" (saving_only defaults)) /\
  exists s1 s2 img1 img2,
    plot_any host0 [one_series] (saving_only defaults) mpl0 = (Ok tt, s1) /\
    plot_any host0 [one_series] (with_savename "b.png" (saving_only defaults)) s1
    = (Ok tt, s2) /\
    img_fig img1 = created mpl0 /\
    img_fig img2 = S (created mpl0) /\
    assoc (savename (with_savename "b.png" (saving_only defaults))) (files s2) = Some img2 /\
    (savename (saving_only defaults) <> savename (with_savename "b.png" (saving_only defaults)) ->
     assoc (savename (saving_only defaults)) (files s2) = Some img1).
Proof.
  assert (Hv1 : valid_call host0 [one_series] (saving_only defaults)).
  { split; [reflexivity|repeat constructor|discriminate|reflexivity|reflexivity]. }
  assert (Hv2 : valid_call host0 [one_series] (with_savename "b.png" (saving_only defaults))).
  { split; [reflexivity|repeat constructor|discriminate|reflexivity|reflexivity]. }
  split; [exact Hv1|]. split; [exact Hv2|]. split; [discriminate|].
  apply (plot_any_saves_one_after_the_other host0 [one_series] (saving_only defaults)
           [one_series] (with_savename "b.png" (saving_only defaults)) mpl0 Hv1 Hv2);
    reflexivity.
Defined.

(** ** The drawing loop *)

Lemma mbind_ext {A B} (m : M A) (k k' : A -> M B) s :
  (forall a s1, k a s1 = k' a s1) -> mbind m k s = mbind m k' s.
Proof. intros H. unfold mbind. destruct (m s) as [[a|e] s1]; [apply H|reflexivity]. Qed.

Lemma mbind_assoc {A B C} (m : M A) (k : A -> M B) (k' : B -> M C) s :
  mbind (mbind m k) k' s = mbind m (fun a => mbind (k a) k') s.
Proof. unfold mbind. destruct (m s) as [[a|e] s1]; reflexivity. Qed.






Lemma subscript_firstn {A} (l : list A) n i :
  i < n -> subscript (firstn n l) i = subscript l i.
Proof.
  intros Hi. unfold subscript. rewrite nth_error_firstn.
  apply Nat.ltb_lt in Hi. now rewrite Hi.
Qed.

Lemma draw_all_two_columns h ax pc labels kwargs vals :
  forall index s,
    draw_all h ax pc labels kwargs index (map (firstn 2) vals) s =
    draw_all h ax pc labels kwargs index vals s.
Proof.
  induction vals as [|values rest IH]; intros index s; [reflexivity|].
  cbn [map draw_all]. apply mbind_ext. intros f s1.
  rewrite (subscript_firstn values 2 0) by lia. apply mbind_ext. intros x s2.
  rewrite (subscript_firstn values 2 1) by lia. apply mbind_ext. intros y s3.
  apply mbind_ext. intros c s4. apply mbind_ext. intros kw s5.
  apply mbind_ext. intros u s6. apply IH.
Qed.

(** Of every series only the first two columns are read: further
    columns change neither the result nor the state. *)
Theorem plot_any_reads_two_columns h vals o s :
  plot_any h (map (firstn 2) vals) o s = plot_any h vals o s.
Proof.
  rewrite !plot_any_unfold. now rewrite draw_all_two_columns.
Qed.

Lemma draw_all_labels_firstn h ax pc ls kwargs vals :
  forall index s,
    draw_all h ax pc (Some (firstn (index + List.length vals) ls)) kwargs index vals s =
    draw_all h ax pc (Some ls) kwargs index vals s.
Proof.
  induction vals as [|values rest IH]; intros index s; [reflexivity|].
  cbn [draw_all List.length]. apply mbind_ext. intros f s1.
  apply mbind_ext. intros x s2. apply mbind_ext. intros y s3.
  apply mbind_ext. intros c s4.
  rewrite (subscript_firstn ls (index + S (List.length rest)) index) by lia.
  apply mbind_ext. intros kw s5. apply mbind_ext. intros u s6.
  replace (index + S (List.length rest)) with (S index + List.length rest) by lia.
  apply IH.
Qed.

(** Labels beyond the number of series are never read: with at least
    one series, cutting the label list to the number of series changes
    neither the result nor the state. *)
Theorem plot_any_reads_one_label_per_series h vals o s ls :
  vals <> [] ->
  labels o = Some ls ->
  plot_any h vals (with_labels (firstn (List.length vals) ls) o) s = plot_any h vals o s.
Proof.
  intros Hne Hl. rewrite !plot_any_unfold.
  unfold effective_labels, finish.
  cbn [with_labels labels plotcase kwargs xlims ylims x_label y_label title grid invert
       formatfuncx formatfuncy save savename show].
  change (started (with_labels (firstn (List.length vals) ls) o) s) with (started o s).
  rewrite Hl.
  destruct vals as [|v vals]; [congruence|]. destruct ls as [|l ls]; [reflexivity|].
  cbn [List.length firstn truthy].
  change (l :: firstn (List.length vals) ls)
    with (firstn (0 + List.length (v :: vals)) (l :: ls)).
  now rewrite draw_all_labels_firstn.
Qed.

Lemma plot_any_reads_one_label_per_series_witness :
  [one_series] <> [] /\
  labels two_labels = Some ["a"; "b"] /\
  plot_any host0 [one_series]
           (with_labels (firstn (List.length [one_series]) ["a"; "b"]) two_labels) mpl0
  = plot_any host0 [one_series] two_labels mpl0.
Proof.
  split; [discriminate|]. split; [reflexivity|].
  apply (plot_any_reads_one_label_per_series host0 [one_series] two_labels mpl0 ["a"; "b"]).
  - discriminate.
  - reflexivity.
Defined.

(** An empty label list is no label list: the call runs as with
    [labels=None], without a legend and without an error. *)
Theorem plot_any_empty_labels h vals o s :
  labels o = Some [] ->
  plot_any h vals o s = plot_any h vals (without_labels o) s.
Proof.
  intros Hl. rewrite !plot_any_unfold.
  unfold effective_labels, finish.
  cbn [without_labels labels plotcase kwargs xlims ylims x_label y_label title grid invert
       formatfuncx formatfuncy save savename show].
  change (started (without_labels o) s) with (started o s).
  now rewrite Hl.
Qed.

Lemma plot_any_empty_labels_witness :
  labels (with_labels [] defaults) = Some [] /\
  plot_any host0 [one_series] (with_labels [] defaults) mpl0
  = plot_any host0 [one_series] (without_labels (with_labels [] defaults)) mpl0.
Proof.
  split; [reflexivity|].
  apply (plot_any_empty_labels host0 [one_series] (with_labels [] defaults) mpl0). reflexivity.
Defined.








(** ** Where the drawing loop stops *)

Lemma known_getitem h pc :
  In pc ["lines"; "points"; "vlines"] -> exists f, getitem (exe_func h) pc = Ok f.
Proof.
  intros [<-|[<-|[<-|[]]]]; eexists; reflexivity.
Qed.

(** Extra options that do not fit the renderer stop the call at the
    first series with a [TypeError], before anything is drawn. *)
Theorem plot_any_option_refused h v rest o s :
  In (plotcase o) ["lines"; "points"; "vlines"] ->
  2 <= List.length v ->
  kwargs_fit (plotcase o) (truthy (labels o)) (kwargs o) = false ->
  exists s' a,
    plot_any h (v :: rest) o s = (Raise TypeError, s') /\
    get_axes (created s) (axes_of s') = Some a /\
    artists a = [].
Proof.
  intros Hpc Hv Hfit. destruct (known_getitem h _ Hpc) as [f Hf].
  rewrite plot_any_unfold. cbn [draw_all].
  unfold mbind at 1. unfold lift at 1. rewrite Hf.
  unfold mbind at 1. unfold lift at 1. rewrite (subscript_nth v 0 []) by lia.
  unfold mbind at 1. unfold lift at 1. rewrite (subscript_nth v 1 []) by lia.
  unfold mbind at 1. unfold lift at 1. rewrite subscript_color.
  assert (Hcall : forall l lbls,
             given l = truthy (labels o) ->
             mbind (f (created s) (nth 0 v []) (nth 1 v []) (call_kw (color_at 0) l (kwargs o)))
                   (fun _ => draw_all h (created s) (plotcase o) lbls (kwargs o) 1 rest)
                   (started o s)
             = (Raise TypeError, started o s)).
  { intros l lbls Hl. apply mbind_raise.
    apply (renderer_type_error h (plotcase o)); [exact Hf|].
    now rewrite accepts_call_kw, Hl. }
  exists (started o s), fresh_axes.
  split; [|split; [apply (started_view o s)|reflexivity]].
  unfold effective_labels. destruct (labels o) as [[|l ls]|]; cbn [truthy] in *.
  - unfold mbind at 1. unfold ret at 1.
    change (("color", VStr (color_at 0)) :: kwargs o)
      with (call_kw (color_at 0) None (kwargs o)).
    now rewrite Hcall.
  - unfold mbind at 1. unfold mbind at 1. unfold lift at 1.
    rewrite (subscript_nth (l :: ls) 0 "") by (simpl; lia).
    unfold ret at 1.
    change (("color", VStr (color_at 0)) :: ("label", VStr (nth 0 (l :: ls) "")) :: kwargs o)
      with (call_kw (color_at 0) (Some (nth 0 (l :: ls) "")) (kwargs o)).
    now rewrite Hcall.
  - unfold mbind at 1. unfold ret at 1.
    change (("color", VStr (color_at 0)) :: kwargs o)
      with (call_kw (color_at 0) None (kwargs o)).
    now rewrite Hcall.
Qed.

Lemma plot_any_option_refused_witness :
  In (plotcase (with_plotcase "lines" scatter_call)) ["lines"; "points"; "vlines"] /\
  2 <= List.length one_series /\
  kwargs_fit (plotcase (with_plotcase "lines" scatter_call))
             (truthy (labels (with_plotcase "lines" scatter_call)))
             (kwargs (with_plotcase "lines" scatter_call)) = false /\
  exists s' a,
    plot_any host0 (one_series :: [one_series]) (with_plotcase "lines" scatter_call) mpl0
    = (Raise TypeError, s') /\
    get_axes (created mpl0) (axes_of s') = Some a /\
    artists a = [].
Proof.
  split; [left; reflexivity|]. split; [simpl; lia|]. split; [reflexivity|].
  apply (plot_any_option_refused host0 one_series [one_series]
           (with_plotcase "lines" scatter_call) mpl0);
    [left; reflexivity|simpl; lia|reflexivity].
Defined.

Lemma draw_all_app h ax pc labels kwargs rest pre :
  forall index s,
    draw_all h ax pc labels kwargs index (pre ++ rest) s =
    mbind (draw_all h ax pc labels kwargs index pre)
          (fun _ => draw_all h ax pc labels kwargs (index + List.length pre) rest) s.
Proof.
  induction pre as [|values pre IH]; intros index s.
  - cbn [app draw_all List.length]. rewrite Nat.add_0_r. reflexivity.
  - cbn [app draw_all List.length].
    rewrite mbind_assoc. apply mbind_ext. intros f s1.
    rewrite mbind_assoc. apply mbind_ext. intros x s2.
    rewrite mbind_assoc. apply mbind_ext. intros y s3.
    rewrite mbind_assoc. apply mbind_ext. intros c s4.
    rewrite mbind_assoc. apply mbind_ext. intros kw s5.
    rewrite mbind_assoc. apply mbind_ext. intros u s6.
    rewrite IH. now replace (index + S (List.length pre)) with (S index + List.length pre) by lia.
Qed.

(** The loop over the series before the one that stops it. *)
Lemma loop_ok_prefix h pre o s :
  loop_ok h pre o ->
  exists f s1,
    getitem (exe_func h) (plotcase o) = Ok f /\
    view (created s) s1 (add_artists (drawn_series pre o) fresh_axes)
         (created s :: open_figs s) (files s) /\
    forall rest,
      draw_all h (created s) (plotcase o) (effective_labels o) (kwargs o) 0 (pre ++ rest)
               (started o s)
      = draw_all h (created s) (plotcase o) (effective_labels o) (kwargs o)
                 (List.length pre) rest s1.
Proof.
  intros (Hkw & Hser & Hlab & Hdraw).
  destruct (accepts_known h _ _ Hkw) as [f Hf].
  destruct (draw_all_view h (plotcase o) (effective_labels o) (kwargs o) (created s)
              (created s :: open_figs s) (files s) pre 0 (started o s) fresh_axes)
    as (s1 & R1 & V1); auto using started_view.
  - now rewrite given_effective_labels.
  - unfold effective_labels. intros ls. destruct (labels o) as [[|l l0]|] eqn:E; try discriminate.
    intros [= <-]. apply (Hlab _ _ eq_refl).
  - exists f, s1. split; [exact Hf|]. split; [exact V1|].
    intros rest. rewrite draw_all_app. now rewrite (mbind_ok _ _ _ _ _ R1).
Qed.

(** A series with fewer than two columns stops the call with an
    [IndexError]; the series before it are drawn. *)
Theorem plot_any_short_series h pre v post o s :
  loop_ok h pre o ->
  List.length v < 2 ->
  exists s' a,
    plot_any h (pre ++ v :: post) o s = (Raise IndexError, s') /\
    get_axes (created s) (axes_of s') = Some a /\
    artists a = drawn_series pre o.
Proof.
  intros Hpre Hv. destruct (loop_ok_prefix h pre o s Hpre) as (f & s1 & Hf & V1 & Happ).
  rewrite plot_any_unfold, Happ. cbn [draw_all].
  unfold mbind at 1. unfold lift at 1. rewrite Hf.
  exists s1, (add_artists (drawn_series pre o) fresh_axes).
  split; [|split; [apply V1|now rewrite artists_add_artists]].
  destruct v as [|x [|y v]]; [reflexivity|reflexivity|simpl in Hv; lia].
Qed.

Lemma plot_any_short_series_witness :
  loop_ok host0 [one_series] defaults /\
  List.length [[PyInt 1; PyInt 2]] < 2 /\
  exists s' a,
    plot_any host0 ([one_series] ++ [[PyInt 1; PyInt 2]] :: []) defaults mpl0
    = (Raise IndexError, s') /\
    get_axes (created mpl0) (axes_of s') = Some a /\
    artists a = drawn_series [one_series] defaults.
Proof.
  assert (Hloop : loop_ok host0 [one_series] defaults).
  { split; [reflexivity|]. split; [repeat constructor|]. split; [discriminate|reflexivity]. }
  split; [exact Hloop|]. split; [simpl; lia|].
  apply (plot_any_short_series host0 [one_series] [[PyInt 1; PyInt 2]] [] defaults mpl0 Hloop).
  simpl. lia.
Defined.

Lemma renderer_refused h pc f ax x y kw s :
  getitem (exe_func h) pc = Ok f ->
  accepts pc kw = true ->
  draw_ok h (drawn pc x y kw) = false ->
  f ax x y kw s = (Raise ValueError, s).
Proof.
  intros Hf Hacc Hd. unfold accepts in Hacc.
  destruct (assoc pc params) as [ps|] eqn:E; [|discriminate].
  destruct (known_kind _ _ E) as [[-> ->]|[[-> ->]|[-> ->]]];
    injection Hf as <-;
    [unfold lines|unfold points|unfold vlines];
    rewrite Hacc; now apply ax_draw_refused.
Qed.

(** A draw call the host refuses stops the call with the error of the
    host; the series before it are drawn. *)
Theorem plot_any_host_refuses_series h pre v post o s :
  loop_ok h pre o ->
  2 <= List.length v ->
  (forall l ls, labels o = Some (l :: ls) -> List.length pre < List.length (l :: ls)) ->
  draw_ok h (call_of (List.length pre) v o) = false ->
  exists s' a,
    plot_any h (pre ++ v :: post) o s = (Raise ValueError, s') /\
    get_axes (created s) (axes_of s') = Some a /\
    artists a = drawn_series pre o.
Proof.
  intros Hpre Hv Hlab Hd.
  destruct (loop_ok_prefix h pre o s Hpre) as (f & s1 & Hf & V1 & Happ).
  destruct Hpre as (Hkw & _).
  rewrite plot_any_unfold, Happ. cbn [draw_all].
  unfold mbind at 1. unfold lift at 1. rewrite Hf.
  unfold mbind at 1. unfold lift at 1. rewrite (subscript_nth v 0 []) by lia.
  unfold mbind at 1. unfold lift at 1. rewrite (subscript_nth v 1 []) by lia.
  unfold mbind at 1. unfold lift at 1. rewrite subscript_color.
  exists s1, (add_artists (drawn_series pre o) fresh_axes).
  split; [|split; [apply V1|now rewrite artists_add_artists]].
  assert (Hcall : forall lbls,
             mbind (f (created s) (nth 0 v []) (nth 1 v [])
                      (call_kw (color_at (List.length pre))
                               (label_at (effective_labels o) (List.length pre))
                               (kwargs o)))
                   (fun _ => draw_all h (created s) (plotcase o) lbls
                                      (kwargs o) (S (List.length pre)) post) s1
             = (Raise ValueError, s1)).
  { intros lbls. apply mbind_raise.
    apply (renderer_refused h (plotcase o)); [exact Hf| |exact Hd].
    rewrite accepts_call_kw. rewrite <- given_effective_labels in Hkw.
    now destruct (effective_labels o). }
  revert Hcall. unfold effective_labels.
  destruct (labels o) as [[|l ls]|] eqn:El; cbn [truthy label_at option_map]; intros Hcall.
  - unfold mbind at 1. unfold ret at 1.
    change (("color", VStr (color_at (List.length pre))) :: kwargs o)
      with (call_kw (color_at (List.length pre)) None (kwargs o)).
    now rewrite Hcall.
  - unfold mbind at 1. unfold mbind at 1. unfold lift at 1.
    rewrite (subscript_nth (l :: ls) (List.length pre) "") by (apply (Hlab l ls eq_refl)).
    unfold ret at 1.
    change (("color", VStr (color_at (List.length pre)))
              :: ("label", VStr (nth (List.length pre) (l :: ls) "")) :: kwargs o)
      with (call_kw (color_at (List.length pre))
                    (Some (nth (List.length pre) (l :: ls) "")) (kwargs o)).
    now rewrite Hcall.
  - unfold mbind at 1. unfold ret at 1.
    change (("color", VStr (color_at (List.length pre))) :: kwargs o)
      with (call_kw (color_at (List.length pre)) None (kwargs o)).
    now rewrite Hcall.
Qed.

Lemma plot_any_host_refuses_series_witness :
  loop_ok host0 [one_series] defaults /\
  2 <= List.length ragged_series /\
  draw_ok host0 (call_of (List.length [one_series]) ragged_series defaults) = false /\
  exists s' a,
    plot_any host0 ([one_series] ++ ragged_series :: [one_series]) defaults mpl0
    = (Raise ValueError, s') /\
    get_axes (created mpl0) (axes_of s') = Some a /\
    artists a = drawn_series [one_series] defaults.
Proof.
  assert (Hloop : loop_ok host0 [one_series] defaults).
  { split; [reflexivity|]. split; [repeat constructor|]. split; [discriminate|reflexivity]. }
  split; [exact Hloop|]. split; [simpl; lia|]. split; [reflexivity|].
  apply (plot_any_host_refuses_series host0 [one_series] ragged_series [one_series]
           defaults mpl0 Hloop); [simpl; lia|discriminate|reflexivity].
Defined.

(** ** Inverted axes, in general *)

Lemma flipped_parity l :
  forall a,
    x_inverted (flipped l a) = xorb (Nat.odd (count_occ string_dec l "x")) (x_inverted a) /\
    y_inverted (flipped l a) = xorb (Nat.odd (count_occ string_dec l "y")) (y_inverted a).
Proof.
  induction l as [|axis l IH]; intros a; [now split|].
  change (flipped (axis :: l) a) with (flipped l (flip a axis)).
  destruct (IH (flip a axis)) as [Hx Hy]. rewrite Hx, Hy. clear IH Hx Hy.
  cbn [count_occ]. unfold flip.
  destruct (string_dec axis "x") as [->|Hx].
  - destruct (string_dec "x" "y") as [E|_]; [discriminate E|].
    cbn [String.eqb Ascii.eqb Bool.eqb]. simpl x_inverted. simpl y_inverted.
    rewrite Nat.odd_succ, <- Nat.negb_odd.
    split; [|reflexivity].
    destruct (Nat.odd (count_occ string_dec l "x")), (x_inverted a); reflexivity.
  - apply String.eqb_neq in Hx. rewrite Hx.
    destruct (string_dec axis "y") as [->|Hy].
    + cbn [String.eqb Ascii.eqb Bool.eqb]. simpl x_inverted. simpl y_inverted.
      rewrite Nat.odd_succ, <- Nat.negb_odd.
      split; [reflexivity|].
      destruct (Nat.odd (count_occ string_dec l "y")), (y_inverted a); reflexivity.
    + apply String.eqb_neq in Hy. rewrite Hy. now split.
Qed.

(** Only how often an axis is named counts, not the order and not the
    other names: an axis points the other way than with [invert=[]]
    exactly when it is named an odd number of times. *)
Theorem plot_any_invert_parity h vals o s inv :
  valid_call h vals o ->
  exists s0 a0 s1 a1,
    plot_any h vals (with_invert [] o) s = (Ok tt, s0) /\
    get_axes (created s) (axes_of s0) = Some a0 /\
    plot_any h vals (with_invert inv o) s = (Ok tt, s1) /\
    get_axes (created s) (axes_of s1) = Some a1 /\
    x_inverted a1 = xorb (Nat.odd (count_occ string_dec inv "x")) (x_inverted a0) /\
    y_inverted a1 = xorb (Nat.odd (count_occ string_dec inv "y")) (y_inverted a0).
Proof.
  intros Hvalid.
  destruct (plot_any_directions h vals (with_invert [] o) s (valid_with_invert _ _ _ _ Hvalid))
    as (s0 & a0 & R0 & A0 & X0 & Y0).
  destruct (plot_any_directions h vals (with_invert inv o) s
              (valid_with_invert _ _ _ _ Hvalid))
    as (s1 & a1 & R1 & A1 & X1 & Y1).
  exists s0, a0, s1, a1. repeat split; auto.
  - rewrite X1, X0. apply flipped_parity.
  - rewrite Y1, Y0. apply flipped_parity.
Qed.

Lemma plot_any_invert_parity_witness :
  valid_call host0 [one_series] defaults /\
  exists s0 a0 s1 a1,
    plot_any host0 [one_series] (with_invert [] defaults) mpl0 = (Ok tt, s0) /\
    get_axes (created mpl0) (axes_of s0) = Some a0 /\
    plot_any host0 [one_series] (with_invert ["y"; "z"; "x"; "y"] defaults) mpl0 = (Ok tt, s1) /\
    get_axes (created mpl0) (axes_of s1) = Some a1 /\
    x_inverted a1
    = xorb (Nat.odd (count_occ string_dec ["y"; "z"; "x"; "y"] "x")) (x_inverted a0) /\
    y_inverted a1
    = xorb (Nat.odd (count_occ string_dec ["y"; "z"; "x"; "y"] "y")) (y_inverted a0).
Proof.
  assert (Hvalid : valid_call host0 [one_series] defaults).
  { split; [reflexivity|repeat constructor|discriminate|reflexivity|reflexivity]. }
  split; [exact Hvalid|].
  exact (plot_any_invert_parity host0 [one_series] defaults mpl0 ["y"; "z"; "x"; "y"] Hvalid).
Defined.
